(** * VoiceReminderService: the React front end, embedded and verified

    The development follows the JavaScript sources of the front end
    ([frontend/src/pages/CreateReminder.jsx],
    [frontend/src/components/ReminderNotifications.jsx],
    [frontend/src/pages/Dashboard.jsx], [Reminders.jsx]).  JavaScript
    strings are sequences of UTF-16 code units, objects used as
    dictionaries are finite maps, numbers are IEEE-754 binary64 values,
    and React state is threaded explicitly. *)

From Stdlib Require Import ZArith NArith Ascii String DecimalString List Bool Lia PrimFloat.
From stdpp Require Import base gmap strings list.

Open Scope string_scope.
Open Scope list_scope.
Open Scope nat_scope.

(** ** JavaScript strings *)

Module JS.

(** A JavaScript string is a finite sequence of 16-bit code units. *)
Abbreviation jsstring := (list N) (only parsing).

(** A string literal of the source whose characters are all ASCII. *)
Definition js (s : string) : jsstring :=
  map N_of_ascii (list_ascii_of_string s).

(** [!s] for a string [s]: only the empty string is falsy. *)
Definition falsy (s : jsstring) : bool :=
  match s with [] => true | _ :: _ => false end.

(** ECMAScript WhiteSpace and LineTerminator code points, the characters
    that [String.prototype.trim] removes. *)
Definition is_white (c : N) : bool :=
  ((c =? 0x9) || (c =? 0xA) || (c =? 0xB) || (c =? 0xC) || (c =? 0xD)
   || (c =? 0x20) || (c =? 0xA0) || (c =? 0x1680)
   || ((0x2000 <=? c) && (c <=? 0x200A))
   || (c =? 0x2028) || (c =? 0x2029) || (c =? 0x202F) || (c =? 0x205F)
   || (c =? 0x3000) || (c =? 0xFEFF))%N.

Fixpoint trimStart (s : jsstring) : jsstring :=
  match s with
  | c :: s' => if is_white c then trimStart s' else s
  | [] => []
  end.

Definition trimEnd (s : jsstring) : jsstring := rev (trimStart (rev s)).

Definition trim (s : jsstring) : jsstring := trimEnd (trimStart s).

(** [s.substring(0, n)]. *)
Definition substring0 (n : nat) (s : jsstring) : jsstring := take n s.

(** [\d] without the unicode flag: the ten ASCII digits. *)
Definition is_digit (c : N) : bool := ((0x30 <=? c) && (c <=? 0x39))%N.

(** *** Sets of strings

    A JavaScript [Set] iterates in insertion order and holds no value
    twice: it is kept as the list of its elements, oldest first. *)
Abbreviation JSSet := (list (list N)) (only parsing).

(** [s.has(k)] *)
Definition set_has (s : JSSet) (k : jsstring) : bool := bool_decide (k ∈ s).

(** [s.add(k)]: a value already present keeps its place. *)
Definition set_add (s : JSSet) (k : jsstring) : JSSet :=
  if set_has s k then s else s ++ [k].

(** [new Set(arr)] *)
Definition new_Set (arr : list jsstring) : JSSet := foldl set_add [] arr.

(** [Array.from(s)] and the spread [...s] *)
Definition Array_from (s : JSSet) : list jsstring := s.

(** [arr.slice(-n)]: the start index is [max (length - n) 0]. *)
Definition slice_last (n : nat) (arr : list jsstring) : list jsstring :=
  drop (length arr - n) arr.

(** *** Numbers

    [Math.round] on binary64 values: the integral value closest to [x], a
    tie going toward positive infinity; NaN, infinities, zeros and values
    that are integral already are returned as they are, and a result that
    is zero keeps the sign of [x]. *)
Definition two52 : float := 4503599627370496%float.

(** The largest integral value not above [x], for [0 <= x < 2^52]: adding
    and subtracting [2^52] rounds [x] to an integer, which is then
    corrected downward. *)
Definition floor_small (x : float) : float :=
  let r := ((x + two52) - two52)%float in
  if (x <? r)%float then (r - 1)%float else r.

Definition Math_round (x : float) : float :=
  if PrimFloat.is_nan x then x
  else if (two52 <=? PrimFloat.abs x)%float then x
  else if (x =? 0)%float then x
  else if (x <? 0)%float then
    let y := (- x)%float in
    let f := floor_small y in
    (- (if (0.5 <? y - f)%float then f + 1 else f))%float
  else
    let f := floor_small x in
    if (0.5 <=? x - f)%float then (f + 1)%float else f.

End JS.

Import JS.

(** ** Regular expressions, as backtracking matchers with continuations *)

Module RegExp.

Inductive regex : Type :=
| Bol                                  (* ^  (no multiline flag) *)
| Eol                                  (* $  (no multiline flag) *)
| Chr (c : N)                          (* an escaped literal, as in \+ *)
| Digit                                (* \d *)
| Seq (r1 r2 : regex)
| Rep (lo hi : nat) (r : regex).       (* r{lo,hi}, greedy *)

(** [m r pos rest k]: match [r] at offset [pos], where [rest] is the input
    from [pos] on, and hand the new position to the continuation [k]. *)
Fixpoint m (r : regex) (pos : nat) (rest : jsstring)
    (k : nat -> jsstring -> bool) {struct r} : bool :=
  match r with
  | Bol => (pos =? 0) && k pos rest
  | Eol => match rest with [] => k pos rest | _ :: _ => false end
  | Chr c =>
      match rest with
      | x :: rest' => (x =? c)%N && k (S pos) rest'
      | [] => false
      end
  | Digit =>
      match rest with
      | x :: rest' => is_digit x && k (S pos) rest'
      | [] => false
      end
  | Seq r1 r2 => m r1 pos rest (fun pos' rest' => m r2 pos' rest' k)
  | Rep lo hi r1 =>
      (fix rep (lo hi pos : nat) (rest : jsstring) {struct hi} : bool :=
         match hi with
         | S hi' =>
             m r1 pos rest (fun pos' rest' => rep (pred lo) hi' pos' rest')
             || ((lo =? 0) && k pos rest)
         | O => (lo =? 0) && k pos rest
         end) lo hi pos rest
  end.

(** [r.test(s)] for a regex without the global or sticky flag: a match may
    start at any offset of [s]. *)
Definition test (r : regex) (s : jsstring) : bool :=
  existsb (fun i => m r i (drop i s) (fun _ _ => true)) (seq 0 (S (length s))).

End RegExp.

(** ** CreateReminder.jsx *)

Module CreateReminder.

Import RegExp.

Record FormData : Type := {
  user_id : jsstring;
  phone_number : jsstring;
  message : jsstring;
  scheduled_date : jsstring;
  scheduled_time : jsstring;
}.

(** [/^\+\d{10,15}$/] *)
Definition phone_re : regex :=
  Seq Bol (Seq (Chr 0x2B) (Seq (Rep 10 15 Digit) Eol)).

(** The payload handed to [remindersApi.create]; [scheduled_at] is the time
    value (milliseconds since the epoch) that [toISOString] prints. *)
Record CreatePayload : Type := {
  p_user_id : jsstring;
  p_phone_number : jsstring;
  p_message : jsstring;
  p_scheduled_at : Z;
}.

Section Validation.

(** The runtime's [new Date(string)]: the time value of the parsed string,
    or [None] for an Invalid Date (time value NaN). *)
Variable Date_parse : jsstring -> option Z.

(** The runtime's [new Date()]: the time value of the current instant. *)
Variable now : Z.

(** [`${formData.scheduled_date}T${formData.scheduled_time}`] *)
Definition date_time_string (formData : FormData) : jsstring :=
  scheduled_date formData ++ js "T" ++ scheduled_time formData.

(** [scheduledAt <= new Date()]: a comparison of time values; it is false
    when the left side is an Invalid Date. *)
Definition date_le_now (scheduledAt : option Z) : bool :=
  match scheduledAt with
  | Some t => (t <=? now)%Z
  | None => false
  end.

(** The object [newErrors] that [validateForm] builds. *)
Definition newErrors (formData : FormData) : gmap string string :=
  let e0 : gmap string string := ∅ in
  let e1 :=
    if falsy (user_id formData)
    then <["user_id" := "Please select a user"]> e0 else e0 in
  let e2 :=
    if falsy (phone_number formData)
    then <["phone_number" := "Phone number is required"]> e1
    else if negb (test phone_re (phone_number formData))
    then <["phone_number" := "Use international format: +1234567890"]> e1
    else e1 in
  let e3 :=
    if falsy (trim (message formData))
    then <["message" := "Message is required"]> e2
    else if length (message formData) <? 5
    then <["message" := "Message must be at least 5 characters"]> e2
    else e2 in
  let e4 :=
    if falsy (scheduled_date formData)
    then <["scheduled_date" := "Date is required"]> e3 else e3 in
  let e5 :=
    if falsy (scheduled_time formData)
    then <["scheduled_time" := "Time is required"]> e4 else e4 in
  if negb (falsy (scheduled_date formData)) && negb (falsy (scheduled_time formData))
  then
    let scheduledAt := Date_parse (date_time_string formData) in
    if date_le_now scheduledAt
    then <["scheduled_date" := "Scheduled time must be in the future"]> e5
    else e5
  else e5.

(** [validateForm]: the value it returns,
    [Object.keys(newErrors).length === 0]; the errors it stores are
    [newErrors]. *)
Definition validateForm (formData : FormData) : bool :=
  size (newErrors formData) =? 0.

(** [handleSubmit]: the request it sends to [remindersApi.create], if any.
    An Invalid Date makes [toISOString] throw inside the [try] block, so no
    request is sent then either. *)
Definition handleSubmit (formData : FormData) : option CreatePayload :=
  if negb (validateForm formData) then None
  else
    match Date_parse (date_time_string formData) with
    | Some t =>
        Some {| p_user_id := user_id formData;
                p_phone_number := phone_number formData;
                p_message := message formData;
                p_scheduled_at := t |}
    | None => None
    end.

End Validation.

(** One behaviour of the runtime, for examples: a clock in the UTC zone
    at 2026-01-01T00:00Z, parsing two date-time strings of the format
    that the date and time inputs produce. *)
Definition example_now : Z := 1767225600000.

Definition example_Date_parse (s : jsstring) : option Z :=
  if bool_decide (s = js "2020-01-01T09:00") then Some 1577869200000%Z
  else if bool_decide (s = js "2030-01-01T09:00") then Some 1893488400000%Z
  else None.

Definition example_form (msg date : string) : FormData :=
  {| user_id := js "u-1"; phone_number := js "+15551234567";
     message := js msg; scheduled_date := js date;
     scheduled_time := js "09:00" |}.

(** The shape the interface names: a leading plus sign, then 10 to 15
    digits. *)
Definition phone_shape (s : jsstring) : Prop :=
  exists ds, s = 0x2B%N :: ds /\ 10 <= length ds <= 15 /\ Forall (fun c => is_digit c = true) ds.

End CreateReminder.

(** ** ReminderNotifications.jsx *)

Module ReminderNotifications.

(** [POLL_INTERVAL], in milliseconds. *)
Definition POLL_INTERVAL : Z := 5000.

(** The address every poll fetches. *)
Definition request_url (API_URL : jsstring) : jsstring :=
  API_URL ++ js "/api/reminders/notifications/recent?since_seconds=10".

(** The fields of a feed entry that the component reads. *)
Record LatestLog : Type := {
  transcript : option jsstring;
}.

Record Notification : Type := {
  reminder_id : jsstring;
  status : jsstring;
  updated_at : jsstring;
  message : jsstring;
  latest_log : option LatestLog;
}.

(** What [fetch] and [response.json()] hand to the component. *)
Inductive Response : Type :=
| Rejected                                         (* fetch or json() throws *)
| NotOk (http_status : Z)                          (* !response.ok *)
| Data (notifications : option (list Notification)).

(** Calls into react-hot-toast. *)
Inductive ToastKind : Type := Loading | Success | Failure | Plain.

Record ToastCall : Type := {
  kind : ToastKind;
  text : jsstring;
  toast_id : option jsstring;
  duration : Z;
  icon : option jsstring;
}.

(** Everything one run of [checkForUpdates] does besides logging to the
    console: the state updates it queues, the toasts it shows, the timers it
    starts and the callbacks it calls. *)
Record Effects : Type := {
  set_calls : list jsstring;        (* setProcessedIds(prev => new Set([...prev, notifId])) *)
  toasts : list ToastCall;          (* toast.loading, toast.success, toast.error *)
  timeouts : list (Z * ToastCall);  (* setTimeout(() => toast(..), delay) *)
  on_updates : nat;                 (* onUpdate() *)
  poll_time_sets : nat;             (* setLastPollTime(Date.now()) *)
}.

Definition no_effects : Effects :=
  {| set_calls := []; toasts := []; timeouts := []; on_updates := 0; poll_time_sets := 0 |}.

Definition queue_processed (notifId : jsstring) (e : Effects) : Effects :=
  {| set_calls := set_calls e ++ [notifId]; toasts := toasts e;
     timeouts := timeouts e; on_updates := on_updates e;
     poll_time_sets := poll_time_sets e |}.

Definition toast (t : ToastCall) (e : Effects) : Effects :=
  {| set_calls := set_calls e; toasts := toasts e ++ [t];
     timeouts := timeouts e; on_updates := on_updates e;
     poll_time_sets := poll_time_sets e |}.

Definition setTimeout (delay : Z) (t : ToastCall) (e : Effects) : Effects :=
  {| set_calls := set_calls e; toasts := toasts e;
     timeouts := timeouts e ++ [(delay, t)]; on_updates := on_updates e;
     poll_time_sets := poll_time_sets e |}.

Definition call_onUpdate (e : Effects) : Effects :=
  {| set_calls := set_calls e; toasts := toasts e;
     timeouts := timeouts e; on_updates := S (on_updates e);
     poll_time_sets := poll_time_sets e |}.

Definition setLastPollTime (e : Effects) : Effects :=
  {| set_calls := set_calls e; toasts := toasts e;
     timeouts := timeouts e; on_updates := on_updates e;
     poll_time_sets := S (poll_time_sets e) |}.

(** [`${notification.reminder_id}-${notification.status}-${notification.updated_at}`] *)
Definition notifId (n : Notification) : jsstring :=
  reminder_id n ++ js "-" ++ status n ++ js "-" ++ updated_at n.

(** [notification.latest_log?.transcript], when it is truthy. *)
Definition truthy_transcript (n : Notification) : option jsstring :=
  match latest_log n with
  | Some l =>
      match transcript l with
      | Some t => if falsy t then None else Some t
      | None => None
      end
  | None => None
  end.

Definition telephone : jsstring := [0xD83D; 0xDCDE]%N.     (* U+1F4DE *)
Definition speech_balloon : jsstring := [0xD83D; 0xDCAC]%N. (* U+1F4AC *)
Definition check_mark : jsstring := [0x2705]%N.
Definition cross_mark : jsstring := [0x274C]%N.

Definition loading_toast (n : Notification) : ToastCall :=
  {| kind := Loading;
     text := telephone ++ js " Calling: " ++ substring0 50 (message n) ++ js "...";
     toast_id := Some (reminder_id n); duration := 3000; icon := None |}.

Definition success_toast (n : Notification) : ToastCall :=
  {| kind := Success;
     text := check_mark ++ js " Call completed: " ++ substring0 50 (message n);
     toast_id := Some (reminder_id n); duration := 5000; icon := Some telephone |}.

Definition transcript_toast (t : jsstring) : ToastCall :=
  {| kind := Plain; text := t; toast_id := None; duration := 4000;
     icon := Some speech_balloon |}.

Definition error_toast (n : Notification) : ToastCall :=
  {| kind := Failure;
     text := cross_mark ++ js " Call failed: " ++ substring0 50 (message n);
     toast_id := Some (reminder_id n); duration := 5000; icon := None |}.

(** The [switch] on [notification.status]. *)
Definition show_toast (n : Notification) (e : Effects) : Effects :=
  if bool_decide (status n = js "processing") then toast (loading_toast n) e
  else if bool_decide (status n = js "called") then
    let e1 := toast (success_toast n) e in
    match truthy_transcript n with
    | Some t => setTimeout 500 (transcript_toast t) e1
    | None => e1
    end
  else if bool_decide (status n = js "failed") then toast (error_toast n) e
  else if bool_decide (status n = js "scheduled") then e
  else e.

(** The callback of [data.notifications.forEach].  [processedIds] is the
    set the enclosing [checkForUpdates] closed over: the component's state
    at the render that created the callback. *)
Definition on_notification (processedIds : JSSet) (e : Effects) (n : Notification) : Effects :=
  if set_has processedIds (notifId n) then e
  else show_toast n (queue_processed (notifId n) e).

(** [checkForUpdates], given the response to its request.  [onUpdate]
    tells whether the parent passed the callback. *)
Definition checkForUpdates (processedIds : JSSet) (onUpdate : bool)
    (r : Response) : Effects :=
  match r with
  | Rejected => no_effects
  | NotOk _ => no_effects
  | Data notifications =>
      let e :=
        match notifications with
        | Some (n :: l) =>
            let e1 := foldl (on_notification processedIds) no_effects (n :: l) in
            if onUpdate then call_onUpdate e1 else e1
        | Some [] | None => no_effects
        end in
      setLastPollTime e
  end.

(** The updater [prev => new Set([...prev, notifId])]. *)
Definition mark_processed (notifId : jsstring) (prev : JSSet) : JSSet :=
  new_Set (Array_from prev ++ [notifId]).

(** React applies the queued updaters, in the order of the calls, to the
    current state. *)
Definition apply_updates (state : JSSet) (queue : list jsstring) : JSSet :=
  foldl (fun prev k => mark_processed k prev) state queue.

(** The clean-up effect, run after a render in which [processedIds]
    changed: the state it sets, if it sets one. *)
Definition cleanup_effect (processedIds : JSSet) : option JSSet :=
  if 100 <? length processedIds
  then Some (new_Set (slice_last 100 (Array_from processedIds)))
  else None.

Definition cleanup (processedIds : JSSet) : JSSet :=
  match cleanup_effect processedIds with
  | Some s => s
  | None => processedIds
  end.

(** The set after the updates of one run of [checkForUpdates], before the
    clean-up effect.  [closure] is the set that the running callback closed
    over and [state] the component's state when the response arrives; they
    are the same set unless the response belongs to a request that an
    earlier render started. *)
Definition before_cleanup (onUpdate : bool) (closure state : JSSet)
    (r : Response) : JSSet :=
  apply_updates state (set_calls (checkForUpdates closure onUpdate r)).

(** One poll: the callback runs on the response, the queued updates are
    applied, and the clean-up effect runs. *)
Definition poll (onUpdate : bool) (closure state : JSSet) (r : Response) : JSSet :=
  cleanup (before_cleanup onUpdate closure state r).

(** The component's state after a sequence of responses, from
    [new Set()]; each response comes with the set its callback closed
    over. *)
Definition run (onUpdate : bool) (arrivals : list (list (list N) * Response)) : JSSet :=
  foldl (fun state a => poll onUpdate (fst a) state (snd a)) [] arrivals.

(** The state after further responses, from any state; each response comes
    with the set its callback closed over. *)
Definition run_from (onUpdate : bool) (state : JSSet)
    (arrivals : list (list (list N) * Response)) : JSSet :=
  foldl (fun st a => poll onUpdate (fst a) st (snd a)) state arrivals.

(** No poll of the sequence makes the set outgrow 100 keys, so that the
    clean-up effect never trims it. *)
Fixpoint untrimmed (onUpdate : bool) (state : JSSet)
    (arrivals : list (list (list N) * Response)) : bool :=
  match arrivals with
  | [] => true
  | a :: rest =>
      (length (before_cleanup onUpdate (fst a) state (snd a)) <=? 100)
      && untrimmed onUpdate (poll onUpdate (fst a) state (snd a)) rest
  end.

(** The instants (in milliseconds) at which an interval registered at [t0]
    polls: at once, and then every [POLL_INTERVAL]. *)
Definition poll_time (t0 : Z) (k : nat) : Z := (t0 + Z.of_nat k * POLL_INTERVAL)%Z.

(** Feed entries for examples. *)
Definition example_notification (rid st updated : string)
    (log : option LatestLog) : Notification :=
  {| reminder_id := js rid; status := js st; updated_at := js updated;
     message := js "Take your pill"; latest_log := log |}.

(** The failed reminders r0, r1, r2, ..., all updated at the same time. *)
Definition numbered_notification (i : nat) : Notification :=
  example_notification ("r" ++ NilZero.string_of_uint (Nat.to_uint i))%string
    "failed" "2025-12-10T10:00:00" None.

(** *** The request, as the feed reads it *)

Fixpoint split_on (c : N) (s : jsstring) : list jsstring :=
  match s with
  | [] => [[]]
  | x :: s' =>
      if (x =? c)%N then [] :: split_on c s'
      else match split_on c s' with
           | w :: ws => (x :: w) :: ws
           | [] => [[x]]
           end
  end.

(** The part of an address after its first question mark. *)
Definition query_string (url : jsstring) : jsstring :=
  match split_on 0x3F url with
  | _ :: q :: qs => q ++ concat (map (fun s => 0x3F%N :: s) qs)
  | _ => []
  end.

Definition key_value (s : jsstring) : jsstring * jsstring :=
  match split_on 0x3D s with
  | k :: v :: vs => (k, v ++ concat (map (fun s => 0x3D%N :: s) vs))
  | k :: [] => (k, [])
  | [] => ([], [])
  end.

Definition query_param (name url : jsstring) : option jsstring :=
  snd <$> List.find (fun kv => bool_decide (fst kv = name))
            (map key_value (split_on 0x26 (query_string url))).

Definition decimal (s : jsstring) : option Z :=
  match s with
  | [] => None
  | _ =>
      foldl (fun acc c =>
               match acc with
               | Some a => if is_digit c then Some (10 * a + (Z.of_N c - 48))%Z else None
               | None => None
               end) (Some 0%Z) s
  end.

(** The window, in seconds, that a request asks for. *)
Definition since_seconds (url : jsstring) : option Z :=
  match query_param (js "since_seconds") url with
  | Some v => decimal v
  | None => None
  end.

End ReminderNotifications.

(** ** StatusBadge (Dashboard.jsx and Reminders.jsx, the same text in both) *)

Module StatusBadge.

Inductive Icon : Type := Clock | Loader2 | CheckCircle | XCircle.

Record Entry : Type := {
  icon : Icon;
  class : string;
  label : string;
}.

(** What a property read on [config] can give: nothing, one of the
    entries, or a member that every object inherits from
    [Object.prototype] (a function, or the prototype object itself). *)
Inductive Value : Type :=
| Undefined
| Config (e : Entry)
| Inherited (name : jsstring).

Definition scheduled_entry : Entry :=
  {| icon := Clock; class := "status-scheduled"; label := "Scheduled" |}.
Definition processing_entry : Entry :=
  {| icon := Loader2; class := "status-processing"; label := "Processing" |}.
Definition called_entry : Entry :=
  {| icon := CheckCircle; class := "status-called"; label := "Called" |}.
Definition failed_entry : Entry :=
  {| icon := XCircle; class := "status-failed"; label := "Failed" |}.

(** The own properties of the object literal [config]. *)
Definition config : gmap (list N) Entry :=
  <[js "failed" := failed_entry]>
    (<[js "called" := called_entry]>
       (<[js "processing" := processing_entry]>
          (<[js "scheduled" := scheduled_entry]> ∅))).

(** The property names of [Object.prototype], the prototype of every
    object literal. *)
Definition Object_prototype_names : list jsstring :=
  map js ["constructor"; "hasOwnProperty"; "isPrototypeOf";
          "propertyIsEnumerable"; "toLocaleString"; "toString"; "valueOf";
          "__proto__"; "__defineGetter__"; "__defineSetter__";
          "__lookupGetter__"; "__lookupSetter__"].

(** [config[status]]: own properties first, then the prototype chain. *)
Definition get (status : jsstring) : Value :=
  match config !! status with
  | Some e => Config e
  | None =>
      if bool_decide (status ∈ Object_prototype_names)
      then Inherited status else Undefined
  end.

Definition truthy (v : Value) : bool :=
  match v with Undefined => false | Config _ | Inherited _ => true end.

(** [config[status] || config.scheduled] *)
Definition lookup_config (status : jsstring) : Value :=
  if truthy (get status) then get status else get (js "scheduled").

(** What the component returns: the [span] with its class, the icon
    component with its class, and the label; or the error that React raises
    for an element whose type is [undefined]. *)
Inductive Rendered : Type :=
| Span (className : string) (i : Icon) (icon_class : string) (text : string)
| Throws.

Definition span_class (c : string) : string :=
  ("inline-flex items-center gap-1.5 px-3 py-1.5 rounded-full text-xs font-medium " ++ c)%string.

Definition icon_class (status : jsstring) : string :=
  ("h-3.5 w-3.5 " ++ (if bool_decide (status = js "processing") then "animate-spin" else ""))%string.

(** [const { icon: Icon, class: className, label } = ...] and the JSX.  An
    inherited member has none of the three properties, so [Icon] is
    [undefined] there. *)
Definition StatusBadge (status : jsstring) : Rendered :=
  match lookup_config status with
  | Config e => Span (span_class (class e)) (icon e) (icon_class status) (label e)
  | Inherited _ => Throws
  | Undefined => Throws
  end.

End StatusBadge.

(** ** Dashboard.jsx: the success rate *)

Module Dashboard.

(** The statistics object of [remindersApi.getStats]; its fields are
    JavaScript numbers. *)
Record Stats : Type := {
  total : float;
  scheduled : float;
  processing : float;
  called : float;
  failed : float;
}.

(** [stats?.total > 0 ? Math.round((stats.called / stats.total) * 100) : 0],
    with the divisions it evaluates, as pairs of dividend and divisor. *)
Definition success_rate_eval (stats : option Stats) : float * list (float * float) :=
  match stats with
  | Some s =>
      if (0 <? total s)%float
      then (Math_round ((called s / total s) * 100)%float, [(called s, total s)])
      else (0%float, [])
  | None => (0%float, [])
  end.

(** The number shown before the percent sign. *)
Definition success_rate (stats : option Stats) : float :=
  fst (success_rate_eval stats).

Definition divisions (stats : option Stats) : list (float * float) :=
  snd (success_rate_eval stats).

(** Statistics for examples: 23 of 40 reminders called. *)
Definition example_stats : Stats :=
  {| total := 40; scheduled := 10; processing := 7; called := 23; failed := 0 |}.

(** The percentage rounded exactly (a tie going up), for counts
    [called] and [total > 0]: what rounding [100 * called / total] means
    on the rationals. *)
Definition exact_rounded_percent (called total : Z) : Z :=
  ((2 * 100 * called + total) / (2 * total))%Z.

End Dashboard.

(** ** The reminder store and its claim operation *)

Module Store.

Inductive Status : Type := scheduled | processing | called | failed.

Record Reminder : Type := {
  id : nat;
  scheduled_at : Z;
  status : Status;
  external_call_id : option string;
}.

Definition is_scheduled (r : Reminder) : bool :=
  match status r with scheduled => true | _ => false end.

(** A reminder is due when it is scheduled and its time has come. *)
Definition due (now : Z) (r : Reminder) : bool :=
  is_scheduled r && (scheduled_at r <=? now)%Z.

Definition set_processing (r : Reminder) : Reminder :=
  {| id := id r; scheduled_at := scheduled_at r; status := processing;
     external_call_id := external_call_id r |}.

(** Modelled from the spec: the store's claim update, which lives in the
    worker service and is not among the sources here.  It is the single
    conditioned update "set status=processing where status=scheduled",
    returning whether a row changed. *)
Definition claim (rid : nat) (store : gmap nat Reminder) : bool * gmap nat Reminder :=
  match store !! rid with
  | Some r =>
      if is_scheduled r then (true, <[rid := set_processing r]> store)
      else (false, store)
  | None => (false, store)
  end.

(** A claim attempt of one worker on one reminder. *)
Record Attempt : Type := {
  worker : nat;
  target : nat;
}.

(** Concurrent attempts: the store, the attempts not yet run, and what
    each finished attempt observed. *)
Record Config : Type := {
  store : gmap nat Reminder;
  pending : list Attempt;
  observed : list (Attempt * bool);
}.

(** Modelled from the spec: the claim is atomic, so a concurrent execution
    is an interleaving in which any pending attempt may run next, as one
    step. *)
Inductive step : Config -> Config -> Prop :=
| step_claim (c : Config) (before after : list Attempt) (a : Attempt) :
    pending c = before ++ a :: after ->
    step c {| store := snd (claim (target a) (store c));
              pending := before ++ after;
              observed := observed c ++ [(a, fst (claim (target a) (store c)))] |}.

(** Executions: any number of steps. *)
Definition steps : Config -> Config -> Prop := rtc step.

(** A store for examples: reminder 7 is scheduled and due at time 200,
    reminder 8 has been claimed already. *)
Definition example_store : gmap nat Reminder :=
  <[8 := {| id := 8; scheduled_at := 90; status := processing;
            external_call_id := Some "mock-8" |}]>
    (<[7 := {| id := 7; scheduled_at := 100; status := scheduled;
               external_call_id := None |}]> ∅).

Definition start (s : gmap nat Reminder) (attempts : list Attempt) : Config :=
  {| store := s; pending := attempts; observed := [] |}.

(** The attempts on reminder [rid], and how many of them observed [b]. *)
Definition attempts_on (rid : nat) (l : list Attempt) : nat :=
  length (filter (fun a => target a = rid) l).

Definition observations (rid : nat) (b : bool) (l : list (Attempt * bool)) : nat :=
  length (filter (fun ab => target (fst ab) = rid /\ snd ab = b) l).

(** What every reachable configuration satisfies, for a reminder [rid]
    with [total] attempts on it: the attempts are pending or observed, and
    the reminder is either still scheduled with nothing observed, or taken
    with exactly one success observed. *)
Definition claim_inv (rid total : nat) (c : Config) : Prop :=
  attempts_on rid (pending c) + observations rid true (observed c)
  + observations rid false (observed c) = total /\
  ((exists r, store c !! rid = Some r /\ is_scheduled r = true /\
              observations rid true (observed c) = 0 /\
              observations rid false (observed c) = 0)
   \/ (exists r, store c !! rid = Some r /\ is_scheduled r = false /\
                 observations rid true (observed c) = 1)).

(** The execution that runs the pending attempts in their listed order. *)
Fixpoint run_in_order (s : gmap nat Reminder) (todo : list Attempt)
    (seen : list (Attempt * bool)) : Config :=
  match todo with
  | [] => {| store := s; pending := []; observed := seen |}
  | a :: todo' =>
      run_in_order (snd (claim (target a) s)) todo'
        (seen ++ [(a, fst (claim (target a) s))])
  end.

End Store.

(** ** CreateReminder.jsx: editing the form *)

Module CreateReminderForm.

Import CreateReminder.

(** [{ ...prev, [name]: value }] on the form data.  The inputs of the form
    are named after the five fields; a change event under another name
    would add a property that nothing reads. *)
Definition set_field (name : string) (value : jsstring) (prev : FormData) : FormData :=
  if String.eqb name "user_id" then
    {| user_id := value; phone_number := phone_number prev;
       message := message prev; scheduled_date := scheduled_date prev;
       scheduled_time := scheduled_time prev |}
  else if String.eqb name "phone_number" then
    {| user_id := user_id prev; phone_number := value;
       message := message prev; scheduled_date := scheduled_date prev;
       scheduled_time := scheduled_time prev |}
  else if String.eqb name "message" then
    {| user_id := user_id prev; phone_number := phone_number prev;
       message := value; scheduled_date := scheduled_date prev;
       scheduled_time := scheduled_time prev |}
  else if String.eqb name "scheduled_date" then
    {| user_id := user_id prev; phone_number := phone_number prev;
       message := message prev; scheduled_date := value;
       scheduled_time := scheduled_time prev |}
  else if String.eqb name "scheduled_time" then
    {| user_id := user_id prev; phone_number := phone_number prev;
       message := message prev; scheduled_date := scheduled_date prev;
       scheduled_time := value |}
  else prev.

(** [formData[name]] *)
Definition get_field (name : string) (f : FormData) : option jsstring :=
  if String.eqb name "user_id" then Some (user_id f)
  else if String.eqb name "phone_number" then Some (phone_number f)
  else if String.eqb name "message" then Some (message f)
  else if String.eqb name "scheduled_date" then Some (scheduled_date f)
  else if String.eqb name "scheduled_time" then Some (scheduled_time f)
  else None.

(** The component's state: the form data and the [errors] object, whose
    properties hold a message or [null]. *)
Record FormState : Type := {
  formData : FormData;
  errors : gmap string (option string);
}.

(** [errors[name]] as a condition: a message that is not empty. *)
Definition error_shown (errors : gmap string (option string)) (name : string) : option string :=
  match errors !! name with
  | Some (Some msg) => if String.eqb msg "" then None else Some msg
  | Some None | None => None
  end.

(** [handleChange]: the field is set, and the error of that field is
    replaced by [null] when one is shown. *)
Definition handleChange (name : string) (value : jsstring) (st : FormState) : FormState :=
  {| formData := set_field name value (formData st);
     errors :=
       match error_shown (errors st) name with
       | Some _ => <[name := None]> (errors st)
       | None => errors st
       end |}.

(** The state after [validateForm] has run: [setErrors(newErrors)]. *)
Definition validated (Date_parse : jsstring -> option Z) (now : Z)
    (st : FormState) : FormState :=
  {| formData := formData st;
     errors := Some <$> newErrors Date_parse now (formData st) |}.

(** What a form must satisfy to pass [validateForm]: a user is chosen, the
    phone number has the international shape, the message is not blank and
    has at least five code units, date and time are filled in, and the
    runtime does not read them as an instant at or before the current
    one. *)
Definition acceptable (Date_parse : jsstring -> option Z) (now : Z)
    (f : FormData) : Prop :=
  falsy (user_id f) = false /\
  phone_shape (phone_number f) /\
  falsy (trim (message f)) = false /\
  5 <= length (message f) /\
  falsy (scheduled_date f) = false /\
  falsy (scheduled_time f) = false /\
  date_le_now now (Date_parse (date_time_string f)) = false.

(** The names of the five inputs. *)
Definition field_names : list string :=
  ["user_id"; "phone_number"; "message"; "scheduled_date"; "scheduled_time"].

End CreateReminderForm.

(** ** ReminderNotifications.jsx: whole responses *)

Module Feed.

Import ReminderNotifications.

(** A response that brings no notification to look at: a failed request,
    a status that is not ok, or a body without a non-empty list. *)
Definition quiet (r : Response) : bool :=
  match r with
  | Data (Some (_ :: _)) => false
  | Data (Some []) | Data None | NotOk _ | Rejected => true
  end.

(** The notifications that a sequence of responses delivered. *)
Definition delivered (arrivals : list (list (list N) * Response)) : list Notification :=
  flat_map (fun a => match snd a with
                     | Data (Some batch) => batch
                     | _ => []
                     end) arrivals.

(** The toast that the status switch shows for a notification, if any. *)
Definition toast_for (n : Notification) : option ToastCall :=
  if bool_decide (status n = js "processing") then Some (loading_toast n)
  else if bool_decide (status n = js "called") then Some (success_toast n)
  else if bool_decide (status n = js "failed") then Some (error_toast n)
  else None.

End Feed.

(** ** ReminderDetail.jsx *)

Module ReminderDetail.

Import StatusBadge.

(** The entries of [statusConfig]. *)
Record StatusEntry : Type := {
  s_icon : Icon;
  s_class : string;
  s_label : string;
  s_color : string;
  s_bgColor : string;
}.

Definition statusConfig : gmap (list N) StatusEntry :=
  <[js "failed" := {| s_icon := XCircle; s_class := "status-failed";
                      s_label := "Failed"; s_color := "text-red-500";
                      s_bgColor := "bg-red-500" |}]>
    (<[js "called" := {| s_icon := CheckCircle; s_class := "status-called";
                         s_label := "Called"; s_color := "text-green-500";
                         s_bgColor := "bg-green-500" |}]>
       (<[js "processing" := {| s_icon := Loader2; s_class := "status-processing";
                                s_label := "Processing"; s_color := "text-yellow-500";
                                s_bgColor := "bg-yellow-500" |}]>
          (<[js "scheduled" := {| s_icon := Clock; s_class := "status-scheduled";
                                  s_label := "Scheduled"; s_color := "text-blue-500";
                                  s_bgColor := "bg-blue-500" |}]> ∅))).

(** What [statusConfig[reminder.status] || statusConfig.scheduled] gives:
    an entry, or a member inherited from [Object.prototype], which has no
    [icon]. *)
Inductive Chosen : Type :=
| Entry_of (e : StatusEntry)
| Inherited_member (name : jsstring)
| Nothing.

Definition choose (status : jsstring) : Chosen :=
  match statusConfig !! status with
  | Some e => Entry_of e
  | None =>
      if bool_decide (status ∈ Object_prototype_names)
      then Inherited_member status
      else match statusConfig !! js "scheduled" with
           | Some e => Entry_of e
           | None => Nothing
           end
  end.

(** The header of the page: the icon and label it shows, or the error that
    React raises for [<StatusIcon />] when [status.icon] is undefined. *)
Inductive Header : Type :=
| Shown (i : Icon) (spin : bool) (badge_class : string) (text : string)
| Header_throws.

Definition header (status : jsstring) : Header :=
  match choose status with
  | Entry_of e =>
      Shown (s_icon e) (bool_decide (status = js "processing")) (s_class e) (s_label e)
  | Inherited_member _ | Nothing => Header_throws
  end.

(** The reminder as the API returns it; [detail] stands for the fields
    besides the status. *)
Record Reminder : Type := {
  status : jsstring;
  detail : jsstring;
}.

Inductive Fetch : Type :=
| Fetched (data : Reminder)
| Fetch_failed.

(** The page: the reminder it shows, whether the skeleton is shown,
    whether the interval is still set, and how many requests and error
    toasts there have been. *)
Record Page : Type := {
  reminder : option Reminder;
  loading : bool;
  interval_set : bool;
  requests : nat;
  error_toasts : nat;
}.

(** The effect on mount: [fetchReminder()] is called and the interval of
    5000 ms is set. *)
Definition mounted : Page :=
  {| reminder := None; loading := true; interval_set := true;
     requests := 1; error_toasts := 0 |}.

(** The outcome of [fetchReminder]. *)
Definition on_fetchReminder (f : Fetch) (p : Page) : Page :=
  match f with
  | Fetched data =>
      {| reminder := Some data; loading := false; interval_set := interval_set p;
         requests := requests p; error_toasts := error_toasts p |}
  | Fetch_failed =>
      {| reminder := reminder p; loading := false; interval_set := interval_set p;
         requests := requests p; error_toasts := S (error_toasts p) |}
  end.

(** [data.status !== 'processing' && data.status !== 'scheduled'] *)
Definition settled (status : jsstring) : bool :=
  negb (bool_decide (status = js "processing"))
  && negb (bool_decide (status = js "scheduled")).

(** One firing of the interval, with the outcome of its request; a cleared
    interval does not fire. *)
Definition on_interval (p : Page) (f : Fetch) : Page :=
  if interval_set p then
    match f with
    | Fetched data =>
        {| reminder := Some data; loading := loading p;
           interval_set := negb (settled (status data));
           requests := S (requests p); error_toasts := error_toasts p |}
    | Fetch_failed =>
        {| reminder := reminder p; loading := loading p; interval_set := false;
           requests := S (requests p); error_toasts := error_toasts p |}
    end
  else p.

Definition ticks (p : Page) (fs : list Fetch) : Page := foldl on_interval p fs.

(** A request whose outcome lets the interval go on. *)
Definition pending_result (f : Fetch) : bool :=
  match f with
  | Fetched data => negb (settled (status data))
  | Fetch_failed => false
  end.

End ReminderDetail.

(** ** Paging of the lists (Reminders.jsx and Users.jsx, the same text) *)

Module Pagination.

Record Pager : Type := {
  page : Z;
  totalPages : Z;
}.

(** [useState(1)] for both. *)
Definition initial : Pager := {| page := 1; totalPages := 1 |}.

Inductive Event : Type :=
| Previous               (* a click on Previous *)
| Next                   (* a click on Next *)
| Loaded (pages : Z).    (* setTotalPages(data.pages) *)

(** The buttons are rendered when [totalPages > 1]; Previous is disabled on
    page 1 and Next on the last page, and a disabled button does not
    call its handler. *)
Definition step (p : Pager) (ev : Event) : Pager :=
  match ev with
  | Previous =>
      if (1 <? totalPages p)%Z && negb (page p =? 1)%Z
      then {| page := Z.max 1 (page p - 1); totalPages := totalPages p |}
      else p
  | Next =>
      if (1 <? totalPages p)%Z && negb (page p =? totalPages p)%Z
      then {| page := Z.min (totalPages p) (page p + 1); totalPages := totalPages p |}
      else p
  | Loaded pages => {| page := page p; totalPages := pages |}
  end.

Definition after (events : list Event) : Pager := foldl step initial events.

End Pagination.

(** ** Reminders.jsx: the status filter *)

Module Reminders.

Record Reminder : Type := {
  id : jsstring;
  status : jsstring;
  message : jsstring;
}.

(** [statusFilter === 'all' ? reminders : reminders.filter(r => r.status === statusFilter)] *)
Definition filteredReminders (statusFilter : jsstring) (reminders : list Reminder) : list Reminder :=
  if bool_decide (statusFilter = js "all") then reminders
  else filter (fun r => status r = statusFilter) reminders.

(** The text of the empty list. *)
Definition empty_text (statusFilter : jsstring) : jsstring :=
  if bool_decide (statusFilter = js "all") then js "No reminders yet"
  else js "No " ++ statusFilter ++ js " reminders".

End Reminders.

(** ** Users.jsx: creating a user *)

Module Users.







End Users.

(** ** Layout.jsx: the navigation *)

Module Layout.

Record NavItem : Type := {
  name : string;
  href : jsstring;
}.

Definition navigation : list NavItem :=
  [ {| name := "Dashboard"; href := js "/" |};
    {| name := "Users"; href := js "/users" |};
    {| name := "Reminders"; href := js "/reminders" |};
    {| name := "Create Reminder"; href := js "/reminders/create" |} ].

(** [location.pathname === item.href] *)
Definition isActive (pathname : jsstring) (item : NavItem) : bool :=
  bool_decide (pathname = href item).

Definition active_items (pathname : jsstring) : list NavItem :=
  List.filter (isActive pathname) navigation.

End Layout.

(** ** Dashboard.jsx: the stat cards *)

Module DashboardCards.

Import Dashboard.

(** A number as a condition: zero and NaN are falsy. *)
Definition truthy_number (x : float) : bool :=
  negb (PrimFloat.is_nan x) && negb (x =? 0)%float.

(** [stats?.field || 0] *)
Definition or_zero (field : Stats -> float) (stats : option Stats) : float :=
  match stats with
  | Some s => if truthy_number (field s) then field s else 0%float
  | None => 0%float
  end.

End DashboardCards.

(** * Properties *)

(** ** The runtime model on known values *)

Section RuntimeExamples.

Import JS RegExp.

(** [Math.round]: ties go toward positive infinity, and a zero result keeps
    the sign of the argument. *)
Lemma Math_round_examples :
  Math_round 2.5 = 3%float /\ Math_round (-2.5) = (-2)%float /\
  Math_round 0.5 = 1%float /\ Math_round (-0.5) = (-0)%float /\
  Math_round 0.25 = 0%float /\ Math_round 7 = 7%float /\
  Math_round 57.5 = 58%float /\ Math_round infinity = infinity.
Proof. vm_compute. repeat split. Qed.

(** [trim] removes white space, including the no-break space and the line
    separator, at both ends only. *)
Lemma trim_examples :
  trim (js "  Hi  ") = js "Hi" /\
  trim (js " a b ") = js "a b" /\
  trim ([0xA0; 0x48; 0x2028]%N) = js "H" /\
  trim (js "   ") = [].
Proof. vm_compute. repeat split. Qed.

Lemma phone_re_examples :
  test CreateReminder.phone_re (js "+15551234567") = true /\
  test CreateReminder.phone_re (js "+123456789") = false /\
  test CreateReminder.phone_re (js "+1234567890123456") = false /\
  test CreateReminder.phone_re (js "15551234567") = false /\
  test CreateReminder.phone_re (js "+1555123456a") = false /\
  test CreateReminder.phone_re (js "tel:+15551234567") = false.
Proof. vm_compute. repeat split. Qed.

End RuntimeExamples.

(** ** The phone-number pattern *)

Section PhonePattern.

Import RegExp CreateReminder.

Lemma m_Rep_succ (lo hi : nat) (r : regex) (pos : nat) (rest : list N)
    (k : nat -> list N -> bool) :
  m (Rep lo (S hi) r) pos rest k
  = m r pos rest (fun pos' rest' => m (Rep (pred lo) hi r) pos' rest' k)
    || ((lo =? 0) && k pos rest).
Proof. reflexivity. Qed.

Lemma m_Rep_zero (lo : nat) (r : regex) (pos : nat) (rest : list N)
    (k : nat -> list N -> bool) :
  m (Rep lo 0 r) pos rest k = (lo =? 0) && k pos rest.
Proof. reflexivity. Qed.

(** A bounded repetition of [\d] succeeds exactly when the input splits
    into a run of digits of an allowed length and a rest that the
    continuation accepts. *)
Lemma m_Rep_Digit (hi : nat) :
  forall (lo pos : nat) (rest : list N) (k : nat -> list N -> bool),
    m (Rep lo hi Digit) pos rest k = true <->
    exists ds rest',
      rest = ds ++ rest' /\ Forall (fun c => is_digit c = true) ds /\
      lo <= length ds <= hi /\ k (pos + length ds) rest' = true.
Proof.
  induction hi as [|hi IH]; intros lo pos rest k.
  - rewrite m_Rep_zero, andb_true_iff, Nat.eqb_eq. split.
    + intros [-> Hk]. exists [], rest. simpl. rewrite Nat.add_0_r.
      repeat split; auto.
    + intros (ds & rest' & -> & _ & [Hlo Hhi] & Hk).
      destruct ds; simpl in *; [|lia].
      rewrite Nat.add_0_r in Hk. split; [lia | exact Hk].
  - rewrite m_Rep_succ, orb_true_iff, andb_true_iff, Nat.eqb_eq. split.
    + intros [Hm | [-> Hk]].
      * simpl in Hm. destruct rest as [|x rest1]; [discriminate|].
        apply andb_true_iff in Hm as [Hx Hm].
        apply IH in Hm as (ds & rest' & -> & Hds & [Hlo Hhi] & Hk).
        exists (x :: ds), rest'. simpl.
        replace (pos + S (length ds)) with (S pos + length ds) by lia.
        repeat split; auto; lia.
      * exists [], rest. simpl. rewrite Nat.add_0_r.
        repeat split; auto; lia.
    + intros (ds & rest' & -> & Hds & [Hlo Hhi] & Hk).
      destruct ds as [|x ds].
      * right. simpl in *. rewrite Nat.add_0_r in Hk. split; [lia | exact Hk].
      * left. simpl. apply Forall_cons in Hds as [Hx Hds].
        rewrite Hx. simpl. apply IH. exists ds, rest'.
        simpl in Hlo, Hhi, Hk.
        replace (S pos + length ds) with (pos + S (length ds)) by lia.
        repeat split; auto; lia.
Qed.

(** The pattern accepts exactly the strings of the shape "plus sign, then
    10 to 15 digits". *)
Lemma test_phone_re (s : list N) :
  test phone_re s = true <-> phone_shape s.
Proof.
  unfold test, phone_shape. rewrite existsb_exists. split.
  - intros (i & _ & Hm). unfold phone_re in Hm.
    change (((i =? 0) &&
             m (Seq (Chr 43) (Seq (Rep 10 15 Digit) Eol)) i (drop i s)
               (fun _ _ => true)) = true) in Hm.
    apply andb_true_iff in Hm as [Hi Hm]. apply Nat.eqb_eq in Hi. subst i.
    rewrite drop_0 in Hm.
    change (match s with
            | x :: rest' =>
                (x =? 43)%N &&
                m (Rep 10 15 Digit) 1 rest'
                  (fun pos' rest'' => m Eol pos' rest'' (fun _ _ => true))
            | [] => false
            end = true) in Hm.
    destruct s as [|x s']; [discriminate|].
    apply andb_true_iff in Hm as [Hx Hm]. apply N.eqb_eq in Hx. subst x.
    apply m_Rep_Digit in Hm as (ds & rest' & -> & Hds & Hlen & Hk).
    destruct rest'; [|discriminate].
    exists ds. rewrite app_nil_r. auto.
  - intros (ds & -> & Hlen & Hds). exists 0. split.
    + apply in_seq. simpl. lia.
    + rewrite drop_0. unfold phone_re.
      change (((43 =? 43)%N &&
               m (Rep 10 15 Digit) 1 ds
                 (fun pos' rest'' => m Eol pos' rest'' (fun _ _ => true))) = true).
      apply andb_true_iff. split; [apply N.eqb_refl|].
      apply m_Rep_Digit. exists ds, []. rewrite app_nil_r. auto.
Qed.

End PhonePattern.

(** ** Validation of the reminder form *)

Section FormValidation.

Import RegExp CreateReminder.

Variable Date_parse : list N -> option Z.
Variable now : Z.

Local Abbreviation errors := (newErrors Date_parse now).

Local Ltac split_form :=
  unfold newErrors; cbv zeta;
  repeat match goal with
         | |- context [if ?b then _ else _] => destruct b eqn:?
         end;
  simplify_map_eq; try done.

(** The entry that [validateForm] records for each field. *)
Lemma errors_phone_number (f : FormData) :
  errors f !! "phone_number" =
    if falsy (phone_number f) then Some "Phone number is required"
    else if negb (test phone_re (phone_number f))
         then Some "Use international format: +1234567890"
         else None.
Proof. split_form. Qed.

Lemma errors_message (f : FormData) :
  errors f !! "message" =
    if falsy (trim (message f)) then Some "Message is required"
    else if length (message f) <? 5
         then Some "Message must be at least 5 characters"
         else None.
Proof. split_form. Qed.

Lemma errors_scheduled_date (f : FormData) :
  errors f !! "scheduled_date" =
    if falsy (scheduled_date f) then Some "Date is required"
    else if negb (falsy (scheduled_time f))
            && date_le_now now (Date_parse (date_time_string f))
         then Some "Scheduled time must be in the future"
         else None.
Proof. split_form. Qed.

(** A recorded error makes [validateForm] fail, and then [handleSubmit]
    sends nothing. *)
Lemma error_blocks_submit (f : FormData) (key : string) :
  is_Some (errors f !! key) ->
  validateForm Date_parse now f = false /\ handleSubmit Date_parse now f = None.
Proof.
  intros [v Hv].
  assert (Hsize : validateForm Date_parse now f = false).
  { unfold validateForm. apply Nat.eqb_neq.
    apply map_size_ne_0_lookup. eauto. }
  split; [exact Hsize|]. unfold handleSubmit. now rewrite Hsize.
Qed.

End FormValidation.

Section FormClaims.

Import RegExp CreateReminder.

(** Claim C4, as the code has it.  For a message that is non-empty after
    trimming, [validateForm] goes by the length of the message, counted in
    code units before trimming: with at least 5 it records no message
    error, and with fewer than 5 it records the error "Message must be at
    least 5 characters". *)
Theorem message_accepted_from_five (Date_parse : list N -> option Z) (now : Z)
    (f : FormData) :
  falsy (trim (message f)) = false ->
  (5 <= length (message f) ->
   newErrors Date_parse now f !! "message" = None) /\
  (length (message f) < 5 ->
   newErrors Date_parse now f !! "message"
   = Some "Message must be at least 5 characters").
Proof.
  intros Htrim. rewrite errors_message, Htrim.
  destruct (length (message f) <? 5) eqn:H5.
  - apply Nat.ltb_lt in H5. split; [lia | reflexivity].
  - apply Nat.ltb_ge in H5. split; [reflexivity | lia].
Qed.

Lemma message_accepted_from_five_witness :
  newErrors example_Date_parse example_now
    (example_form "Take your pill" "2030-01-01") !! "message" = None /\
  newErrors example_Date_parse example_now
    (example_form "Hey!" "2030-01-01") !! "message"
  = Some "Message must be at least 5 characters".
Proof.
  split.
  - apply (message_accepted_from_five example_Date_parse example_now
             (example_form "Take your pill" "2030-01-01")).
    + vm_compute. reflexivity.
    + vm_compute. lia.
  - apply (message_accepted_from_five example_Date_parse example_now
             (example_form "Hey!" "2030-01-01")).
    + vm_compute. reflexivity.
    + vm_compute. lia.
Defined.

(** Claim C4 as stated fails: the message "Hi" is non-empty after
    trimming, and [validateForm] records a message error for it. *)
Lemma short_message_rejected :
  falsy (trim (message (example_form "Hi" "2030-01-01"))) = false /\
  newErrors example_Date_parse example_now
    (example_form "Hi" "2030-01-01") !! "message"
  = Some "Message must be at least 5 characters" /\
  handleSubmit example_Date_parse example_now
    (example_form "Hi" "2030-01-01") = None.
Proof.
  split; [vm_compute; reflexivity|].
  assert (H : newErrors example_Date_parse example_now
                (example_form "Hi" "2030-01-01") !! "message"
              = Some "Message must be at least 5 characters").
  { rewrite errors_message. vm_compute. reflexivity. }
  split; [exact H|].
  eapply error_blocks_submit. rewrite H. eauto.
Qed.

(** Claim C5.  [validateForm] records no phone-number error exactly when
    the phone number is a plus sign followed by 10 to 15 digits; for every
    other string it records one, fails, and nothing is submitted. *)
Theorem phone_number_accepted_iff_shape (Date_parse : list N -> option Z)
    (now : Z) (f : FormData) :
  (newErrors Date_parse now f !! "phone_number" = None
   <-> phone_shape (phone_number f)) /\
  (~ phone_shape (phone_number f) ->
   is_Some (newErrors Date_parse now f !! "phone_number") /\
   validateForm Date_parse now f = false /\
   handleSubmit Date_parse now f = None).
Proof.
  assert (Hiff : newErrors Date_parse now f !! "phone_number" = None
                 <-> phone_shape (phone_number f)).
  { rewrite errors_phone_number, <- test_phone_re.
    destruct (phone_number f) as [|c s] eqn:Hp; simpl falsy; cbv iota.
    - split; [discriminate|]. intros H. vm_compute in H. discriminate.
    - destruct (test phone_re (c :: s)); simpl; split; congruence. }
  split; [exact Hiff|].
  intros Hshape.
  assert (Hsome : is_Some (newErrors Date_parse now f !! "phone_number")).
  { destruct (newErrors Date_parse now f !! "phone_number") eqn:He; [eauto|].
    exfalso. apply Hshape, Hiff. reflexivity. }
  split; [exact Hsome|]. eapply error_blocks_submit. exact Hsome.
Qed.

(** Claim C6.  When both the date and the time are filled in and the
    runtime reads them as the instant [t]: if [t] is not after the current
    time, [validateForm] records the scheduled_date error, fails, and
    nothing is submitted; if [t] is strictly in the future, no
    scheduled_date error is recorded. *)
Theorem scheduled_at_must_be_future (Date_parse : list N -> option Z)
    (now : Z) (f : FormData) (t : Z) :
  falsy (scheduled_date f) = false ->
  falsy (scheduled_time f) = false ->
  Date_parse (date_time_string f) = Some t ->
  ((t <= now)%Z ->
   newErrors Date_parse now f !! "scheduled_date"
   = Some "Scheduled time must be in the future" /\
   validateForm Date_parse now f = false /\
   handleSubmit Date_parse now f = None) /\
  ((now < t)%Z -> newErrors Date_parse now f !! "scheduled_date" = None).
Proof.
  intros Hd Ht Hp.
  assert (He : newErrors Date_parse now f !! "scheduled_date"
               = if (t <=? now)%Z
                 then Some "Scheduled time must be in the future" else None).
  { rewrite errors_scheduled_date, Hd, Ht, Hp. reflexivity. }
  split.
  - intros Hle. apply Z.leb_le in Hle. rewrite Hle in He.
    split; [exact He|]. eapply error_blocks_submit. rewrite He. eauto.
  - intros Hlt. apply Z.leb_gt in Hlt. rewrite Hlt in He. exact He.
Qed.

Lemma scheduled_at_must_be_future_witness :
  (newErrors example_Date_parse example_now
     (example_form "Take your pill" "2020-01-01") !! "scheduled_date"
   = Some "Scheduled time must be in the future" /\
   handleSubmit example_Date_parse example_now
     (example_form "Take your pill" "2020-01-01") = None) /\
  newErrors example_Date_parse example_now
    (example_form "Take your pill" "2030-01-01") !! "scheduled_date" = None.
Proof.
  split.
  - pose proof (scheduled_at_must_be_future example_Date_parse example_now
                  (example_form "Take your pill" "2020-01-01") 1577869200000%Z
                  eq_refl eq_refl eq_refl) as [H _].
    destruct H as (H1 & _ & H3); [vm_compute; discriminate|].
    split; assumption.
  - refine (proj2 (scheduled_at_must_be_future example_Date_parse example_now
                     (example_form "Take your pill" "2030-01-01")
                     1893488400000%Z eq_refl eq_refl eq_refl) _).
    vm_compute. reflexivity.
Defined.

End FormClaims.

(** ** Sets of strings *)

Section SetLemmas.
Import JS.

Lemma set_has_true (s : list (list N)) (k : list N) : set_has s k = true <-> k ∈ s.
Proof. unfold set_has. apply bool_decide_eq_true. Qed.

Lemma set_has_false (s : list (list N)) (k : list N) : set_has s k = false <-> k ∉ s.
Proof. unfold set_has. apply bool_decide_eq_false. Qed.

Lemma elem_of_set_add (s : list (list N)) (k x : list N) :
  x ∈ set_add s k <-> x ∈ s \/ x = k.
Proof.
  unfold set_add. destruct (set_has s k) eqn:H.
  - apply set_has_true in H. split; [auto|]. intros [?| ->]; auto.
  - rewrite elem_of_app, list_elem_of_singleton. reflexivity.
Qed.

Lemma NoDup_set_add (s : list (list N)) (k : list N) :
  NoDup s -> NoDup (set_add s k).
Proof.
  intros Hs. unfold set_add. destruct (set_has s k) eqn:H; [exact Hs|].
  apply set_has_false in H. apply NoDup_app. split; [exact Hs|]. split.
  - intros x Hx Hk. apply list_elem_of_singleton in Hk. subst. contradiction.
  - apply NoDup_singleton.
Qed.

Lemma length_set_add (s : list (list N)) (k : list N) :
  length (set_add s k) <= S (length s).
Proof.
  unfold set_add. destruct (set_has s k); [lia|].
  rewrite length_app. simpl. lia.
Qed.

Lemma foldl_set_add_spec (arr : list (list N)) :
  forall acc : list (list N),
    NoDup acc ->
    NoDup (foldl set_add acc arr) /\
    (forall x, x ∈ foldl set_add acc arr <-> x ∈ acc \/ x ∈ arr) /\
    length (foldl set_add acc arr) <= length acc + length arr /\
    exists added, foldl set_add acc arr = acc ++ added.
Proof.
  induction arr as [|k arr IH]; intros acc Hacc; simpl.
  - repeat split; auto.
    + intros [?|H]; [assumption | inversion H].
    + lia.
    + exists []. now rewrite app_nil_r.
  - destruct (IH (set_add acc k) (NoDup_set_add acc k Hacc)) as (Hnd & Hin & Hlen & added & Hadd).
    split; [exact Hnd|]. split; [|split].
    + intros x. rewrite Hin, elem_of_set_add, elem_of_cons. tauto.
    + pose proof (length_set_add acc k). lia.
    + rewrite Hadd. unfold set_add. destruct (set_has acc k).
      * eauto.
      * exists ([k] ++ added). now rewrite app_assoc.
Qed.

Lemma foldl_set_add_id (arr : list (list N)) :
  forall acc : list (list N),
    NoDup (acc ++ arr) -> foldl set_add acc arr = acc ++ arr.
Proof.
  induction arr as [|k arr IH]; intros acc Hnd; simpl.
  - now rewrite app_nil_r.
  - assert (Hk : k ∉ acc).
    { apply NoDup_app in Hnd as (_ & Hdis & _). intros Hk.
      apply (Hdis k Hk). left. }
    unfold set_add at 2. apply set_has_false in Hk. rewrite Hk.
    rewrite IH; rewrite <- app_assoc; [reflexivity | exact Hnd].
Qed.

Lemma NoDup_new_Set (arr : list (list N)) : NoDup (new_Set arr).
Proof. apply foldl_set_add_spec. apply NoDup_nil_2. Qed.

Lemma elem_of_new_Set (arr : list (list N)) (x : list N) :
  x ∈ new_Set arr <-> x ∈ arr.
Proof.
  unfold new_Set.
  destruct (foldl_set_add_spec arr [] (NoDup_nil_2)) as (_ & Hin & _).
  rewrite Hin. split; [intros [H|H]; [inversion H | exact H] | auto].
Qed.

Lemma length_new_Set (arr : list (list N)) : length (new_Set arr) <= length arr.
Proof.
  unfold new_Set.
  destruct (foldl_set_add_spec arr [] (NoDup_nil_2)) as (_ & _ & Hlen & _).
  simpl in Hlen. exact Hlen.
Qed.

Lemma new_Set_NoDup (arr : list (list N)) : NoDup arr -> new_Set arr = arr.
Proof. intros H. unfold new_Set. now rewrite foldl_set_add_id. Qed.

End SetLemmas.

(** ** The notification consumer *)

Section Consumer.

Import JS ReminderNotifications.

Lemma mark_processed_set_add (k : list N) (prev : list (list N)) :
  NoDup prev -> mark_processed k prev = set_add prev k.
Proof.
  intros H. unfold mark_processed, Array_from, new_Set.
  rewrite foldl_app. simpl. fold (new_Set prev). now rewrite new_Set_NoDup.
Qed.

Lemma elem_of_mark_processed (k x : list N) (prev : list (list N)) :
  x ∈ mark_processed k prev <-> x ∈ prev \/ x = k.
Proof.
  unfold mark_processed, Array_from.
  rewrite elem_of_new_Set, elem_of_app, list_elem_of_singleton. reflexivity.
Qed.

Lemma elem_of_apply_updates (queue : list (list N)) :
  forall (state : list (list N)) (x : list N),
    x ∈ apply_updates state queue <-> x ∈ state \/ x ∈ queue.
Proof.
  unfold apply_updates.
  induction queue as [|k queue IH]; intros state x; simpl.
  - split; [auto | intros [?|H]; [assumption | inversion H]].
  - rewrite IH, elem_of_mark_processed, elem_of_cons. tauto.
Qed.

Lemma NoDup_apply_updates (queue : list (list N)) :
  forall state : list (list N),
    NoDup state -> NoDup (apply_updates state queue).
Proof.
  unfold apply_updates.
  induction queue as [|k queue IH]; intros state H; simpl; [exact H|].
  apply IH. unfold mark_processed. apply NoDup_new_Set.
Qed.

(** Updates only append: the keys already present keep their places. *)
Lemma apply_updates_appends (queue : list (list N)) :
  forall state : list (list N),
    NoDup state -> exists added, apply_updates state queue = state ++ added.
Proof.
  unfold apply_updates.
  induction queue as [|k queue IH]; intros state H; simpl.
  - exists []. now rewrite app_nil_r.
  - rewrite (mark_processed_set_add k state H).
    destruct (IH (set_add state k) (NoDup_set_add state k H)) as [added Ha].
    rewrite Ha. unfold set_add. destruct (set_has state k); [eauto|].
    exists ([k] ++ added). now rewrite app_assoc.
Qed.

Lemma length_slice_last (n : nat) (arr : list (list N)) :
  length (slice_last n arr) <= n.
Proof. unfold slice_last. rewrite length_drop. lia. Qed.

Lemma length_cleanup (s : list (list N)) : length (cleanup s) <= 100.
Proof.
  unfold cleanup, cleanup_effect. destruct (100 <? length s) eqn:H.
  - etransitivity; [apply length_new_Set | apply length_slice_last].
  - apply Nat.ltb_ge in H. exact H.
Qed.

Lemma cleanup_drop (s : list (list N)) :
  NoDup s -> cleanup s = drop (length s - 100) s.
Proof.
  intros Hs. unfold cleanup, cleanup_effect. destruct (100 <? length s) eqn:H.
  - unfold slice_last, Array_from. apply new_Set_NoDup.
    rewrite <- (take_drop (length s - 100) s) in Hs.
    apply NoDup_app in Hs. tauto.
  - apply Nat.ltb_ge in H. replace (length s - 100) with 0 by lia.
    now rewrite drop_0.
Qed.

Lemma cleanup_small (s : list (list N)) : length s <= 100 -> cleanup s = s.
Proof.
  intros H. unfold cleanup, cleanup_effect.
  apply Nat.ltb_ge in H. now rewrite H.
Qed.

Lemma NoDup_cleanup (s : list (list N)) : NoDup s -> NoDup (cleanup s).
Proof.
  intros Hs. unfold cleanup, cleanup_effect.
  destruct (100 <? length s); [apply NoDup_new_Set | exact Hs].
Qed.

(** After the clean-up effect has set the state, its next run does
    nothing. *)
Lemma cleanup_effect_stable (s : list (list N)) : cleanup_effect (cleanup s) = None.
Proof.
  pose proof (length_cleanup s) as H. unfold cleanup_effect at 1.
  apply Nat.ltb_ge in H. now rewrite H.
Qed.

Lemma NoDup_before_cleanup (onUpdate : bool) (closure s : list (list N))
    (r : Response) :
  NoDup s -> NoDup (before_cleanup onUpdate closure s r).
Proof. intros H. unfold before_cleanup. now apply NoDup_apply_updates. Qed.

Lemma run_snoc (onUpdate : bool) (arrivals : list (list (list N) * Response))
    (closure : list (list N)) (r : Response) :
  run onUpdate (arrivals ++ [(closure, r)])
  = poll onUpdate closure (run onUpdate arrivals) r.
Proof. unfold run. now rewrite foldl_app. Qed.

Lemma NoDup_run (onUpdate : bool) (arrivals : list (list (list N) * Response)) :
  NoDup (run onUpdate arrivals).
Proof.
  induction arrivals as [|[closure r] rs IH] using rev_ind.
  - apply NoDup_nil_2.
  - rewrite run_snoc. unfold poll.
    now apply NoDup_cleanup, NoDup_before_cleanup.
Qed.


(** The effects of the status switch. *)
Lemma set_calls_show_toast (n : Notification) (e : Effects) :
  set_calls (show_toast n e) = set_calls e.
Proof.
  unfold show_toast.
  repeat match goal with
         | |- context [bool_decide ?P] => destruct (bool_decide P)
         end; try reflexivity.
  destruct (truthy_transcript n); reflexivity.
Qed.

Lemma show_toast_silent (n : Notification) (e : Effects) :
  status n <> js "processing" ->
  status n <> js "called" ->
  status n <> js "failed" ->
  show_toast n e = e.
Proof.
  intros H1 H2 H3. unfold show_toast.
  rewrite !bool_decide_eq_false_2 by assumption.
  destruct (bool_decide (status n = js "scheduled")); reflexivity.
Qed.

Lemma on_notification_skip (s : list (list N)) (e : Effects) (n : Notification) :
  notifId n ∈ s -> on_notification s e n = e.
Proof.
  intros H. unfold on_notification. apply set_has_true in H. now rewrite H.
Qed.

Lemma on_notification_new (s : list (list N)) (e : Effects) (n : Notification) :
  notifId n ∉ s ->
  on_notification s e n = show_toast n (queue_processed (notifId n) e).
Proof.
  intros H. unfold on_notification. apply set_has_false in H. now rewrite H.
Qed.

End Consumer.

Section ConsumerClaims.

Import JS ReminderNotifications.

(** Claim C3.  After every poll and the clean-up that follows it, the set
    of seen keys holds at most 100 keys, without repetition, whichever
    render the callback of the poll belongs to.  The poll only appends keys
    to the state it finds, and the clean-up keeps the last 100 of them: the
    oldest are dropped first, and nothing is dropped while the set has at
    most 100 keys.  A further run of the clean-up effect changes nothing. *)
Theorem processed_ids_bounded (onUpdate : bool)
    (arrivals : list (list (list N) * Response))
    (closure : list (list N)) (r : Response) :
  let state := run onUpdate arrivals in
  let grown := before_cleanup onUpdate closure state r in
  let state' := run onUpdate (arrivals ++ [(closure, r)]) in
  length state' <= 100 /\
  NoDup state' /\
  (exists added, grown = state ++ added) /\
  state' = drop (length grown - 100) grown /\
  cleanup_effect state' = None.
Proof.
  cbv zeta. rewrite run_snoc. unfold poll.
  pose proof (NoDup_run onUpdate arrivals) as Hs.
  pose proof (NoDup_before_cleanup onUpdate closure _ r Hs) as Hg.
  split; [apply length_cleanup|].
  split; [now apply NoDup_cleanup|].
  split; [unfold before_cleanup; now apply apply_updates_appends|].
  split; [now apply cleanup_drop | apply cleanup_effect_stable].
Qed.

(** Claim C8.  For a notification whose status is none of processing,
    called and failed (so for scheduled and for every unrecognized status)
    the callback shows no toast and starts no timer: the toast state is
    unchanged.  Its key is nevertheless in the processed set once the
    queued updates are applied. *)
Theorem toast_only_for_call_statuses (processedIds : list (list N))
    (e : Effects) (n : Notification) :
  status n <> js "processing" ->
  status n <> js "called" ->
  status n <> js "failed" ->
  toasts (on_notification processedIds e n) = toasts e /\
  timeouts (on_notification processedIds e n) = timeouts e /\
  notifId n ∈ apply_updates processedIds
                (set_calls (on_notification processedIds e n)).
Proof.
  intros H1 H2 H3.
  destruct (decide (notifId n ∈ processedIds)) as [Hin|Hnin].
  - rewrite on_notification_skip by assumption.
    repeat split; try reflexivity.
    apply elem_of_apply_updates. now left.
  - rewrite on_notification_new by assumption.
    rewrite show_toast_silent by assumption.
    repeat split; try reflexivity.
    apply elem_of_apply_updates. right. simpl.
    apply elem_of_app. right. apply list_elem_of_singleton. reflexivity.
Qed.

Lemma toast_only_for_call_statuses_witness :
  let n := example_notification "r1" "scheduled" "2025-12-10T10:00:00" None in
  let n' := example_notification "r1" "queued" "2025-12-10T10:00:00" None in
  toasts (on_notification [] no_effects n) = [] /\
  notifId n ∈ apply_updates [] (set_calls (on_notification [] no_effects n)) /\
  toasts (on_notification [] no_effects n') = [] /\
  notifId n' ∈ apply_updates [] (set_calls (on_notification [] no_effects n')).
Proof.
  cbv zeta.
  pose proof (toast_only_for_call_statuses [] no_effects
                (example_notification "r1" "scheduled" "2025-12-10T10:00:00" None))
    as H.
  destruct H as (Ht & _ & Hk); [vm_compute; discriminate ..|].
  pose proof (toast_only_for_call_statuses [] no_effects
                (example_notification "r1" "queued" "2025-12-10T10:00:00" None))
    as H'.
  destruct H' as (Ht' & _ & Hk'); [vm_compute; discriminate ..|].
  repeat split; assumption.
Defined.

End ConsumerClaims.

Section Deduplication.

Import JS ReminderNotifications.

Lemma app_cons_inj_fresh (x : N) (l1 : list N) :
  forall l2 k1 k2 : list N,
    x ∉ l1 -> x ∉ k1 -> l1 ++ x :: l2 = k1 ++ x :: k2 -> l1 = k1 /\ l2 = k2.
Proof.
  induction l1 as [|a l1 IH]; intros l2 k1 k2 Hl Hk Heq.
  - destruct k1 as [|b k1]; simpl in Heq.
    + split; congruence.
    + exfalso. apply Hk. inversion Heq. left.
  - destruct k1 as [|b k1]; simpl in Heq.
    + exfalso. apply Hl. inversion Heq. left.
    + inversion Heq; subst.
      destruct (IH l2 k1 k2) as [-> ->]; auto.
      * intros H. apply Hl. now right.
      * intros H. apply Hk. now right.
Qed.

(** The key determines the triple when the reminder ids have one length
    (as identifiers of one format have) and the statuses hold no hyphen. *)
Lemma notifId_inj (a b : Notification) :
  length (reminder_id a) = length (reminder_id b) ->
  0x2D%N ∉ status a ->
  0x2D%N ∉ status b ->
  notifId a = notifId b ->
  reminder_id a = reminder_id b /\ status a = status b /\ updated_at a = updated_at b.
Proof.
  intros Hlen Ha Hb Heq. unfold notifId in Heq.
  apply app_inj_1 in Heq as [Hr Heq]; [|exact Hlen].
  change (js "-") with [0x2D%N] in Heq. simpl in Heq.
  injection Heq as Heq.
  apply app_cons_inj_fresh in Heq as [Hs Hu]; auto.
Qed.

Lemma notifId_same_triple (a b : Notification) :
  reminder_id a = reminder_id b ->
  status a = status b ->
  updated_at a = updated_at b ->
  notifId a = notifId b.
Proof. intros H1 H2 H3. unfold notifId. now rewrite H1, H2, H3. Qed.

(** The queue of a batch: the keys, in order, of the notifications whose
    key is not in the set the callback closed over. *)
Lemma set_calls_foldl (s : list (list N)) (batch : list Notification) :
  forall e : Effects,
    set_calls (foldl (on_notification s) e batch)
    = set_calls e ++ filter (fun k => k ∉ s) (map notifId batch).
Proof.
  induction batch as [|n batch IH]; intros e; simpl.
  - now rewrite app_nil_r.
  - rewrite IH. destruct (decide (notifId n ∈ s)) as [Hin|Hnin].
    + rewrite on_notification_skip by assumption.
      rewrite filter_cons_False by (intros H; now apply H). reflexivity.
    + rewrite on_notification_new by assumption.
      rewrite set_calls_show_toast, filter_cons_True by assumption.
      simpl. now rewrite <- app_assoc.
Qed.

Lemma set_calls_checkForUpdates (s : list (list N)) (onUpdate : bool)
    (batch : list Notification) :
  set_calls (checkForUpdates s onUpdate (Data (Some batch)))
  = filter (fun k => k ∉ s) (map notifId batch).
Proof.
  unfold checkForUpdates. destruct batch as [|n batch]; [reflexivity|].
  destruct onUpdate; unfold setLastPollTime, call_onUpdate; cbn [set_calls];
    rewrite set_calls_foldl; reflexivity.
Qed.

(** Every notification of a batch has its key in the set once the updates
    are applied. *)
Lemma key_recorded (s : list (list N)) (onUpdate : bool)
    (batch : list Notification) (n : Notification) :
  n ∈ batch -> notifId n ∈ before_cleanup onUpdate s s (Data (Some batch)).
Proof.
  intros Hn. unfold before_cleanup.
  rewrite elem_of_apply_updates, set_calls_checkForUpdates.
  destruct (decide (notifId n ∈ s)) as [Hin|Hnin]; [now left|right].
  apply list_elem_of_filter. split; [exact Hnin|].
  apply list_elem_of_fmap. eauto.
Qed.

(** A notification that its callback had not seen has its key in the set
    once the updates are applied, whatever the state is. *)
Lemma key_queued (closure state : list (list N)) (onUpdate : bool)
    (batch : list Notification) (n : Notification) :
  n ∈ batch -> notifId n ∉ closure ->
  notifId n ∈ before_cleanup onUpdate closure state (Data (Some batch)).
Proof.
  intros Hn Hc. unfold before_cleanup.
  rewrite elem_of_apply_updates, set_calls_checkForUpdates. right.
  apply list_elem_of_filter. split; [exact Hc|].
  apply list_elem_of_fmap. eauto.
Qed.

(** A key stays in the set through a poll that trims nothing, whichever
    callback handles the response. *)
Lemma key_persists (onUpdate : bool) (closure state : list (list N))
    (r : Response) (k : list N) :
  k ∈ state ->
  length (before_cleanup onUpdate closure state r) <= 100 ->
  k ∈ poll onUpdate closure state r.
Proof.
  intros Hk Hlen. unfold poll. rewrite cleanup_small by exact Hlen.
  unfold before_cleanup. apply elem_of_apply_updates. now left.
Qed.

Lemma key_persists_untrimmed (onUpdate : bool)
    (arrivals : list (list (list N) * Response)) (k : list N) :
  forall state : list (list N),
    k ∈ state ->
    untrimmed onUpdate state arrivals = true ->
    k ∈ run_from onUpdate state arrivals.
Proof.
  unfold run_from.
  induction arrivals as [|a arrivals IH]; intros state Hk Hu; simpl in *;
    [exact Hk|].
  apply andb_true_iff in Hu as [Hlen Hu]. apply Nat.leb_le in Hlen.
  apply IH; [|exact Hu]. now apply key_persists.
Qed.

(** Claim C2, as the code has it.  The key of a notification is the string
    reminder_id-status-updated_at.  When a callback processes a
    notification [n1] of a batch (its key is not in the set the callback
    closed over), and neither that poll nor the polls after it made the set
    of seen keys outgrow 100 keys, so that nothing was trimmed, then,
    whichever callbacks handled the polls in between, the key is in the set
    of the render that follows, and the callback created by that render
    skips a notification [n2] with the same triple: it has no effect at
    all.  A notification whose key is neither in the set its callback
    closed over nor queued earlier in the same batch is processed: its key
    is queued and the status switch runs.  Keys are equal only for equal
    triples when the reminder ids have the same length and the statuses
    contain no hyphen. *)
Theorem duplicate_skipped_while_retained (onUpdate : bool)
    (state closure : list (list N)) (batch : list Notification)
    (later : list (list (list N) * Response)) (n1 n2 : Notification) :
  n1 ∈ batch ->
  notifId n1 ∉ closure ->
  reminder_id n1 = reminder_id n2 ->
  status n1 = status n2 ->
  updated_at n1 = updated_at n2 ->
  untrimmed onUpdate state ((closure, Data (Some batch)) :: later) = true ->
  let state' := run_from onUpdate state ((closure, Data (Some batch)) :: later) in
  notifId n2 ∈ state' /\
  (forall e, on_notification state' e n2 = e) /\
  (forall c n e,
     notifId n ∉ c -> notifId n ∉ set_calls e ->
     on_notification c e n = show_toast n (queue_processed (notifId n) e) /\
     set_calls (on_notification c e n) = set_calls e ++ [notifId n]) /\
  (forall a b,
     length (reminder_id a) = length (reminder_id b) ->
     0x2D%N ∉ status a -> 0x2D%N ∉ status b ->
     notifId a = notifId b ->
     reminder_id a = reminder_id b /\ status a = status b /\
     updated_at a = updated_at b).
Proof.
  intros Hn Hc H1 H2 H3 Hu state'.
  assert (Hin : notifId n2 ∈ state').
  { subst state'. simpl in Hu. apply andb_true_iff in Hu as [Hlen Hu].
    apply Nat.leb_le in Hlen. unfold run_from. simpl.
    apply key_persists_untrimmed; [|exact Hu].
    unfold poll. rewrite cleanup_small by exact Hlen.
    rewrite <- (notifId_same_triple n1 n2 H1 H2 H3).
    now apply key_queued. }
  split; [exact Hin|]. split; [|split].
  - intros e. now apply on_notification_skip.
  - intros c n e Hnin _. rewrite on_notification_new by assumption.
    split; [reflexivity|]. now rewrite set_calls_show_toast.
  - intros a b. apply notifId_inj.
Qed.

End Deduplication.

Section DeduplicationExamples.

Import JS ReminderNotifications.

(** The failed reminder r0 arrives in one response, again in the next
    (which a callback of the first render handles, showing it once more),
    and a third time: the callback of the render that follows skips it. *)
Lemma duplicate_skipped_while_retained_witness :
  on_notification
    (run_from false []
       [([], Data (Some [numbered_notification 0; numbered_notification 1]));
        ([], Data (Some [numbered_notification 2; numbered_notification 0]))])
    no_effects
    (example_notification "r0" "failed" "2025-12-10T10:00:00"
       (Some {| transcript := None |}))
  = no_effects.
Proof.
  refine (proj1 (proj2 (duplicate_skipped_while_retained false [] []
                   [numbered_notification 0; numbered_notification 1]
                   [([], Data (Some [numbered_notification 2; numbered_notification 0]))]
                   (numbered_notification 0)
                   (example_notification "r0" "failed" "2025-12-10T10:00:00"
                      (Some {| transcript := None |}))
                   _ _ eq_refl eq_refl eq_refl _)) no_effects).
  - apply list_elem_of_here.
  - apply not_elem_of_nil.
  - vm_compute. reflexivity.
Defined.

(** Claim C2 as stated fails, in four ways.
    (1) Two notifications with one triple in one response are both shown:
        the callback tests the set of the render that created it, which the
        queued updates do not change.
    (2) Once 101 keys have been seen, the oldest key is dropped, and the
        notification that carried it is shown again when the next response
        repeats it.
    (3) The triples ("7", "failed", "called-2025") and
        ("7-failed", "called", "2025") differ and have one key: after the
        first has been handled the second is skipped.
    (4) A callback of an earlier render, whose response arrives after the
        notification was recorded, has not seen the key and shows the
        notification again, although the key is in the set and nothing was
        trimmed. *)
Lemma duplicates_not_always_suppressed :
  (let n := example_notification "r1" "called" "2025-12-10T10:00:00"
              (Some {| transcript := Some (js "Take your pill") |}) in
   let e := checkForUpdates [] false (Data (Some [n; n])) in
   toasts e = [success_toast n; success_toast n] /\
   timeouts e = [(500%Z, transcript_toast (js "Take your pill"));
                 (500%Z, transcript_toast (js "Take your pill"))]) /\
  (let batch := map numbered_notification (seq 0 101) in
   let state := poll false [] [] (Data (Some batch)) in
   In (error_toast (numbered_notification 0))
      (toasts (checkForUpdates [] false (Data (Some batch)))) /\
   toasts (checkForUpdates state false (Data (Some [numbered_notification 0])))
   = [error_toast (numbered_notification 0)]) /\
  (let a := example_notification "7" "failed" "called-2025" None in
   let b := example_notification "7-failed" "called" "2025" None in
   let state := poll false [] [] (Data (Some [a])) in
   status a <> status b /\
   toasts (checkForUpdates [] false (Data (Some [a]))) = [error_toast a] /\
   checkForUpdates state false (Data (Some [b])) = setLastPollTime no_effects) /\
  (let n := numbered_notification 0 in
   let state := poll false [] [] (Data (Some [n])) in
   state = [notifId n] /\
   toasts (checkForUpdates [] false (Data (Some [n]))) = [error_toast n] /\
   poll false [] state (Data (Some [n])) = state).
Proof.
  split; [|split; [|split]].
  - vm_compute. split; reflexivity.
  - cbv zeta. split.
    + vm_compute. left. reflexivity.
    + vm_compute. reflexivity.
  - cbv zeta. split; [vm_compute; discriminate|].
    split; vm_compute; reflexivity.
  - cbv zeta. repeat split; vm_compute; reflexivity.
Qed.

End DeduplicationExamples.

(** ** The polling window *)

Section PollingWindow.

Import JS ReminderNotifications.

Lemma split_on_app_fresh (c : N) (a : list N) :
  forall b : list N,
    c ∉ a ->
    split_on c (a ++ b) = (a ++ hd [] (split_on c b)) :: tl (split_on c b).
Proof.
  induction a as [|x a IH]; intros b Hc; simpl.
  - destruct b as [|y b]; simpl; [reflexivity|].
    destruct (y =? c)%N; [reflexivity|]. destruct (split_on c b); reflexivity.
  - assert (Hx : (x =? c)%N = false).
    { apply N.eqb_neq. intros ->. apply Hc. left. }
    rewrite Hx, IH; [reflexivity|]. intros H. apply Hc. now right.
Qed.

(** Every request asks for a window of 10 seconds. *)
Lemma since_seconds_request_url (API_URL : list N) :
  0x3F%N ∉ API_URL -> since_seconds (request_url API_URL) = Some 10%Z.
Proof.
  intros H. unfold since_seconds, query_param, query_string, request_url.
  rewrite split_on_app_fresh by exact H. vm_compute. reflexivity.
Qed.

(** Claim C7.  The interval polls every [POLL_INTERVAL] = 5000 ms, every
    request (to a base address without a query of its own) asks for
    since_seconds = 10, and 10 s is the period plus 5 s of slack: an update
    at an instant [u] after one poll and not after the next, even when that
    next poll runs up to 5 s late, lies inside the window the next poll asks
    for. *)
Theorem window_covers_poll_period (API_URL : list N) (t0 : Z) (k : nat) (late u : Z) :
  0x3F%N ∉ API_URL ->
  (0 <= late <= 5000)%Z ->
  (poll_time t0 k < u <= poll_time t0 (S k) + late)%Z ->
  POLL_INTERVAL = 5000%Z /\
  (poll_time t0 (S k) - poll_time t0 k = POLL_INTERVAL)%Z /\
  since_seconds (request_url API_URL) = Some 10%Z /\
  (10 * 1000 = POLL_INTERVAL + 5000)%Z /\
  (poll_time t0 (S k) + late - 10 * 1000 <= u)%Z.
Proof.
  intros Hurl Hlate Hu. unfold poll_time, POLL_INTERVAL in *.
  repeat split; try lia. now apply since_seconds_request_url.
Qed.

Lemma window_covers_poll_period_witness :
  since_seconds (request_url (js "http://localhost:8000")) = Some 10%Z /\
  (poll_time 0 3 + 2000 - 10 * 1000 <= 15001)%Z.
Proof.
  assert (H : 0x3F%N ∉ js "http://localhost:8000").
  { apply (bool_decide_unpack _). vm_compute. exact I. }
  destruct (window_covers_poll_period (js "http://localhost:8000") 0 2 2000 15001 H)
    as (_ & _ & Hs & _ & Hw).
  - lia.
  - vm_compute. split; [reflexivity | discriminate].
  - split; assumption.
Defined.

End PollingWindow.

(** ** The status badge *)

Section Badge.

Import JS StatusBadge.

Lemma config_lookup_other (status : list N) :
  status <> js "scheduled" -> status <> js "processing" ->
  status <> js "called" -> status <> js "failed" ->
  config !! status = None.
Proof.
  intros H1 H2 H3 H4. unfold config.
  rewrite !lookup_insert_ne by congruence. apply lookup_empty.
Qed.

(** For a status that is neither one of the four keys nor the name of a
    member of [Object.prototype], the lookup falls back to the Scheduled
    entry. *)
Lemma StatusBadge_fallback (status : list N) :
  status <> js "scheduled" -> status <> js "processing" ->
  status <> js "called" -> status <> js "failed" ->
  status ∉ Object_prototype_names ->
  StatusBadge status
  = Span (span_class "status-scheduled") Clock "h-3.5 w-3.5 " "Scheduled".
Proof.
  intros H1 H2 H3 H4 Hp. unfold StatusBadge, lookup_config, get, icon_class.
  rewrite (config_lookup_other status H1 H2 H3 H4).
  rewrite (bool_decide_eq_false_2 _ Hp).
  rewrite (bool_decide_eq_false_2 _ H2). reflexivity.
Qed.

(** Claim C9 at the status "constructor".  The name is none of the four
    keys of [config], yet [config[status]] is not undefined: it is the
    member inherited from [Object.prototype].  The lookup therefore does not
    fall back to the Scheduled entry, [Icon] is undefined, and rendering
    fails. *)
Theorem StatusBadge_inherited_name :
  config !! js "constructor" = None /\
  lookup_config (js "constructor") = Inherited (js "constructor") /\
  StatusBadge (js "constructor") = Throws.
Proof.
  assert (H : config !! js "constructor" = None).
  { apply config_lookup_other; vm_compute; discriminate. }
  split; [exact H|].
  unfold StatusBadge, lookup_config, get. rewrite H.
  split; vm_compute; reflexivity.
Qed.

End Badge.

(** ** The success rate of the dashboard *)

Section SuccessRate.

Import JS Dashboard.

Lemma positive_not_zero (b : float) :
  (0 <? b)%float = true -> b <> 0%float /\ b <> (-0)%float.
Proof.
  intros H. split; intros ->; vm_compute in H; discriminate.
Qed.

(** Claim C10, as the code has it.  Without statistics, and whenever
    [stats.total] is not greater than 0 (so for a total of zero), the
    dashboard shows 0 and evaluates no division.  Otherwise it shows
    [Math.round((called / total) * 100)], computed on binary64 numbers in
    this order, after the single division [called / total].  No division is
    ever evaluated with a divisor that is zero. *)
Theorem success_rate_guarded (stats : option Stats) :
  (stats = None -> success_rate stats = 0%float /\ divisions stats = []) /\
  (forall s, stats = Some s -> (0 <? total s)%float = false ->
     success_rate stats = 0%float /\ divisions stats = []) /\
  (forall s, stats = Some s -> (total s = 0%float \/ total s = (-0)%float) ->
     success_rate stats = 0%float /\ divisions stats = []) /\
  (forall s, stats = Some s -> (0 <? total s)%float = true ->
     success_rate stats = Math_round ((called s / total s) * 100)%float /\
     divisions stats = [(called s, total s)]) /\
  (forall a b, In (a, b) (divisions stats) ->
     (0 <? b)%float = true /\ b <> 0%float /\ b <> (-0)%float).
Proof.
  unfold success_rate, divisions, success_rate_eval.
  split; [intros ->; auto|].
  split; [intros s -> H; rewrite H; auto|].
  split; [intros s -> [H|H]; rewrite H; auto|].
  split; [intros s -> H; rewrite H; auto|].
  intros a b Hin. destruct stats as [s|]; [|inversion Hin].
  destruct (0 <? total s)%float eqn:H; [|inversion Hin].
  simpl in Hin. destruct Hin as [Heq|[]]. injection Heq as <- <-.
  split; [exact H | now apply positive_not_zero].
Qed.

(** Claim C10 as stated fails: for 23 called reminders of 40 the rate is
    57.5 percent, which rounds to 58, and so does the binary64 value of
    [100 * called / total]; the dashboard shows 57, because the binary64
    quotient 23/40 times 100 lies just below 57.5. *)
Lemma success_rate_23_of_40 :
  success_rate (Some example_stats) = 57%float /\
  Math_round (100 * called example_stats / total example_stats)%float = 58%float /\
  exact_rounded_percent 23 40 = 58%Z /\
  ((called example_stats / total example_stats) * 100 <? 57.5)%float = true.
Proof. vm_compute. repeat split. Qed.

End SuccessRate.

(** ** Claiming a due reminder *)

Section Claiming.

Import Store.

Lemma attempts_on_insert (rid : nat) (before after : list Attempt) (a : Attempt) :
  attempts_on rid (before ++ a :: after)
  = attempts_on rid (before ++ after) + (if decide (target a = rid) then 1 else 0).
Proof.
  unfold attempts_on. rewrite !filter_app, filter_cons, !length_app.
  destruct (decide (target a = rid)); simpl; lia.
Qed.

Lemma observations_snoc (rid : nat) (b : bool) (l : list (Attempt * bool))
    (a : Attempt) (b' : bool) :
  observations rid b (l ++ [(a, b')])
  = observations rid b l
    + (if decide (target a = rid /\ b' = b) then 1 else 0).
Proof.
  unfold observations. rewrite filter_app, length_app, filter_cons. simpl.
  destruct (decide (target a = rid /\ b' = b)); reflexivity.
Qed.

(** The claim of another reminder leaves this one as it is. *)
Lemma claim_other (rid rid' : nat) (s : gmap nat Reminder) :
  rid' <> rid -> snd (claim rid' s) !! rid = s !! rid.
Proof.
  intros H. unfold claim. destruct (s !! rid') as [r|]; [|reflexivity].
  destruct (is_scheduled r); [|reflexivity].
  simpl. now rewrite lookup_insert_ne.
Qed.

Lemma claim_scheduled (rid : nat) (s : gmap nat Reminder) (r : Reminder) :
  s !! rid = Some r -> is_scheduled r = true ->
  fst (claim rid s) = true /\ snd (claim rid s) !! rid = Some (set_processing r).
Proof.
  intros Hr Hs. unfold claim. rewrite Hr, Hs. simpl.
  split; [reflexivity | apply lookup_insert_eq].
Qed.

Lemma claim_taken (rid : nat) (s : gmap nat Reminder) (r : Reminder) :
  s !! rid = Some r -> is_scheduled r = false ->
  claim rid s = (false, s).
Proof. intros Hr Hs. unfold claim. now rewrite Hr, Hs. Qed.

Lemma claim_inv_step (rid total : nat) (c c' : Config) :
  claim_inv rid total c -> step c c' -> claim_inv rid total c'.
Proof.
  intros [Hcount Hcase] Hstep. destruct Hstep as [c before after a Hp].
  unfold claim_inv. simpl. rewrite Hp, attempts_on_insert in Hcount.
  rewrite !observations_snoc.
  destruct (decide (target a = rid)) as [Ha|Ha].
  - rewrite Ha. destruct Hcase as [(r & Hr & Hs & Ht & Hf)|(r & Hr & Hs & Ht)].
    + destruct (claim_scheduled rid (store c) r Hr Hs) as [Hb Hl].
      rewrite Hb, Hl.
      rewrite (decide_True (P := rid = rid /\ true = true)) by auto.
      rewrite (decide_False (P := rid = rid /\ true = false)) by (intros [_ ?]; discriminate).
      split; [lia|]. right. exists (set_processing r).
      repeat split; auto. lia.
    + rewrite (claim_taken rid (store c) r Hr Hs). simpl.
      rewrite (decide_False (P := rid = rid /\ false = true)) by (intros [_ ?]; discriminate).
      rewrite (decide_True (P := rid = rid /\ false = false)) by auto.
      split; [lia|]. right. exists r. repeat split; auto. lia.
  - rewrite claim_other by exact Ha.
    rewrite !decide_False by (intros [? _]; contradiction).
    split; [lia|]. rewrite !Nat.add_0_r. exact Hcase.
Qed.

Lemma claim_inv_steps (rid total : nat) (c c' : Config) :
  claim_inv rid total c -> steps c c' -> claim_inv rid total c'.
Proof.
  intros Hinv Hsteps. induction Hsteps as [c|c c1 c2 Hstep _ IH].
  - exact Hinv.
  - apply IH. eapply claim_inv_step; eauto.
Qed.

(** Running the pending attempts in their listed order is an execution,
    and it leaves no attempt pending. *)
Lemma run_in_order_steps (todo : list Attempt) :
  forall (s : gmap nat Reminder) (seen : list (Attempt * bool)),
    steps {| store := s; pending := todo; observed := seen |}
          (run_in_order s todo seen)
    /\ pending (run_in_order s todo seen) = [].
Proof.
  induction todo as [|a todo IH]; intros s seen; simpl.
  - split; [apply rtc_refl | reflexivity].
  - destruct (IH (snd (claim (target a) s)) (seen ++ [(a, fst (claim (target a) s))]))
      as [Hsteps Hdone].
    split; [|exact Hdone].
    eapply rtc_l; [|exact Hsteps].
    apply (step_claim {| store := s; pending := a :: todo; observed := seen |} [] todo a).
    reflexivity.
Qed.

(** Claim C1.  Let a reminder be scheduled and due, and let there be N >= 1
    concurrent claim attempts on it, among attempts on any reminders.  The
    attempts can always be run to completion, and in every completed
    interleaving exactly one attempt on the reminder observes success and
    the other N - 1 observe failure. *)
Theorem claim_exactly_once (now : Z) (s : gmap nat Reminder) (rid : nat)
    (r : Reminder) (attempts : list Attempt) :
  s !! rid = Some r ->
  due now r = true ->
  1 <= attempts_on rid attempts ->
  (exists c, steps (start s attempts) c /\ pending c = []) /\
  (forall c, steps (start s attempts) c -> pending c = [] ->
     observations rid true (observed c) = 1 /\
     observations rid false (observed c) = attempts_on rid attempts - 1).
Proof.
  intros Hr Hdue HN. split.
  - exists (run_in_order s attempts []). apply run_in_order_steps.
  - intros c Hsteps Hdone.
    assert (Hinit : claim_inv rid (attempts_on rid attempts) (start s attempts)).
    { unfold claim_inv, start. simpl. split; [unfold observations; simpl; lia|].
      left. exists r. unfold due in Hdue. apply andb_true_iff in Hdue as [Hs _].
      repeat split; auto. }
    destruct (claim_inv_steps _ _ _ _ Hinit Hsteps) as [Hcount Hcase].
    rewrite Hdone in Hcount. unfold attempts_on at 1 in Hcount. simpl in Hcount.
    destruct Hcase as [(_ & _ & _ & Ht & Hf)|(_ & _ & _ & Ht)]; lia.
Qed.

(** Two workers race for reminder 7 and worker 2 runs first: it succeeds
    and worker 1 observes failure. *)
Lemma claim_exactly_once_witness :
  exists c,
    steps (start example_store [{| worker := 1; target := 7 |};
                                {| worker := 2; target := 7 |}]) c /\
    observed c = [({| worker := 2; target := 7 |}, true);
                  ({| worker := 1; target := 7 |}, false)] /\
    observations 7 true (observed c) = 1 /\
    observations 7 false (observed c) = 1.
Proof.
  pose (a1 := {| worker := 1; target := 7 |}).
  pose (a2 := {| worker := 2; target := 7 |}).
  pose (c0 := start example_store [a1; a2]).
  pose (c1 := {| store := snd (claim 7 (store c0)); pending := [a1];
                 observed := [(a2, fst (claim 7 (store c0)))] |}).
  pose (c2 := {| store := snd (claim 7 (store c1)); pending := [];
                 observed := observed c1 ++ [(a1, fst (claim 7 (store c1)))] |}).
  assert (Hsteps : steps c0 c2).
  { eapply rtc_l; [exact (step_claim c0 [a1] [] a2 eq_refl)|].
    eapply rtc_l; [exact (step_claim c1 [] [] a1 eq_refl)|].
    apply rtc_refl. }
  exists c2. split; [exact Hsteps|]. split; [vm_compute; reflexivity|].
  refine (proj2 (claim_exactly_once 200 example_store 7
                   {| id := 7; scheduled_at := 100; status := scheduled;
                      external_call_id := None |} [a1; a2] _ _ _) c2 Hsteps eq_refl).
  - vm_compute. reflexivity.
  - vm_compute. reflexivity.
  - vm_compute. lia.
Defined.

End Claiming.

(** ** The reminder form: acceptance, submission and editing *)

Section FormAcceptance.

Import RegExp CreateReminder CreateReminderForm.

Variable Date_parse : list N -> option Z.
Variable now : Z.

Lemma errors_user_id (f : FormData) :
  newErrors Date_parse now f !! "user_id" =
    if falsy (user_id f) then Some "Please select a user" else None.
Proof.
  unfold newErrors; cbv zeta;
  repeat match goal with
         | |- context [if ?b then _ else _] => destruct b eqn:?
         end;
  simplify_map_eq; try done.
Qed.

Lemma errors_scheduled_time (f : FormData) :
  newErrors Date_parse now f !! "scheduled_time" =
    if falsy (scheduled_time f) then Some "Time is required" else None.
Proof.
  unfold newErrors; cbv zeta;
  repeat match goal with
         | |- context [if ?b then _ else _] => destruct b eqn:?
         end;
  simplify_map_eq; try done.
Qed.

Lemma validateForm_acceptable (f : FormData) :
  validateForm Date_parse now f = true <-> acceptable Date_parse now f.
Proof.
  unfold validateForm, acceptable. rewrite Nat.eqb_eq, map_size_empty_iff.
  split.
  - intros He.
    pose proof (errors_user_id f) as Hu.
    pose proof (errors_phone_number Date_parse now f) as Hp.
    pose proof (errors_message Date_parse now f) as Hm.
    pose proof (errors_scheduled_date Date_parse now f) as Hd.
    pose proof (errors_scheduled_time f) as Ht.
    rewrite He, lookup_empty in Hu, Hp, Hm, Hd, Ht.
    destruct (falsy (user_id f)); [discriminate|].
    destruct (falsy (phone_number f)); [discriminate|].
    destruct (test phone_re (phone_number f)) eqn:Hre; [|discriminate].
    destruct (falsy (trim (message f))); [discriminate|].
    destruct (length (message f) <? 5) eqn:Hlen; [discriminate|].
    destruct (falsy (scheduled_date f)); [discriminate|].
    destruct (falsy (scheduled_time f)); [discriminate|].
    destruct (date_le_now now (Date_parse (date_time_string f))); [discriminate|].
    apply test_phone_re in Hre. apply Nat.ltb_ge in Hlen. auto 10.
  - intros (Hu & Hp & Hm & Hlen & Hd & Ht & Hle).
    apply test_phone_re in Hp. apply Nat.ltb_ge in Hlen.
    assert (Hpf : falsy (phone_number f) = false).
    { destruct (phone_number f); [|reflexivity]. vm_compute in Hp. discriminate. }
    unfold newErrors. cbv zeta.
    rewrite Hu, Hpf, Hp, Hm, Hlen, Hd, Ht, Hle. reflexivity.
Qed.

Lemma handleSubmit_sends (f : FormData) (p : CreatePayload) :
  handleSubmit Date_parse now f = Some p <->
  validateForm Date_parse now f = true /\
  exists t, Date_parse (date_time_string f) = Some t /\ (now < t)%Z /\
            p = {| p_user_id := user_id f; p_phone_number := phone_number f;
                   p_message := message f; p_scheduled_at := t |}.
Proof.
  unfold handleSubmit. split.
  - destruct (validateForm Date_parse now f) eqn:Hv; [|discriminate]. simpl.
    destruct (Date_parse (date_time_string f)) as [t|] eqn:Hp; [|discriminate].
    intros [= <-]. split; [reflexivity|]. exists t.
    apply validateForm_acceptable in Hv.
    destruct Hv as (_ & _ & _ & _ & _ & _ & Hle).
    rewrite Hp in Hle. simpl in Hle. apply Z.leb_gt in Hle. auto.
  - intros (Hv & t & Hp & _ & ->). rewrite Hv, Hp. reflexivity.
Qed.

End FormAcceptance.
Section FormProperties.

Import RegExp CreateReminder CreateReminderForm.

Lemma errors_other_key (Date_parse : list N -> option Z) (now : Z)
    (f : FormData) (k : string) :
  k ∉ field_names -> newErrors Date_parse now f !! k = None.
Proof.
  intros Hk. unfold field_names in Hk.
  assert (k <> "user_id" /\ k <> "phone_number" /\ k <> "message" /\
          k <> "scheduled_date" /\ k <> "scheduled_time") as (H1 & H2 & H3 & H4 & H5).
  { repeat split; intros ->; apply Hk; set_solver. }
  unfold newErrors; cbv zeta;
  repeat match goal with
         | |- context [if ?b then _ else _] => destruct b eqn:?
         end;
  simplify_map_eq; try done.
Qed.

(** Property X1.  [validateForm] returns true exactly for the acceptable
    forms; it returns false exactly when it has recorded an error, and
    errors are recorded under the names of the five inputs only. *)
Theorem validateForm_accepts_exactly (Date_parse : list N -> option Z)
    (now : Z) (f : FormData) :
  (validateForm Date_parse now f = true <-> acceptable Date_parse now f) /\
  (validateForm Date_parse now f = false <->
   exists k, is_Some (newErrors Date_parse now f !! k)) /\
  (forall k, is_Some (newErrors Date_parse now f !! k) -> k ∈ field_names).
Proof.
  split; [apply validateForm_acceptable|]. split.
  - unfold validateForm. rewrite Nat.eqb_neq. split.
    + intros H. apply map_size_ne_0_lookup in H as (k & x & Hk). exists k. eauto.
    + intros (k & x & Hk). apply map_size_ne_0_lookup. eauto.
  - intros k Hk. destruct (decide (k ∈ field_names)) as [|Hn]; [assumption|].
    rewrite (errors_other_key Date_parse now f k Hn) in Hk.
    destruct Hk as [x Hx]. discriminate.
Qed.

(** Property X2.  [handleSubmit] sends a request exactly when the form is
    acceptable and its date and time parse; the request carries the user,
    the phone number and the message as typed, and an instant strictly
    after the current one. *)
Theorem handleSubmit_sends_exactly (Date_parse : list N -> option Z)
    (now : Z) (f : FormData) (p : CreatePayload) :
  handleSubmit Date_parse now f = Some p <->
  acceptable Date_parse now f /\
  exists t, Date_parse (date_time_string f) = Some t /\ (now < t)%Z /\
            p = {| p_user_id := user_id f; p_phone_number := phone_number f;
                   p_message := message f; p_scheduled_at := t |}.
Proof.
  rewrite handleSubmit_sends, validateForm_acceptable. reflexivity.
Qed.

(** Property X3.  A form that is filled in correctly but whose date and
    time the runtime cannot read (an Invalid Date) passes [validateForm]
    with no error recorded, and [handleSubmit] still sends nothing. *)
Theorem invalid_date_passes_validation (Date_parse : list N -> option Z)
    (now : Z) (f : FormData) :
  falsy (user_id f) = false ->
  phone_shape (phone_number f) ->
  falsy (trim (message f)) = false ->
  5 <= length (message f) ->
  falsy (scheduled_date f) = false ->
  falsy (scheduled_time f) = false ->
  Date_parse (date_time_string f) = None ->
  validateForm Date_parse now f = true /\
  newErrors Date_parse now f = ∅ /\
  handleSubmit Date_parse now f = None.
Proof.
  intros Hu Hp Hm Hl Hd Ht Hparse.
  assert (Hv : validateForm Date_parse now f = true).
  { apply validateForm_acceptable. unfold acceptable. rewrite Hparse.
    repeat split; auto. }
  split; [exact Hv|]. split.
  - unfold validateForm in Hv. apply Nat.eqb_eq in Hv.
    now apply map_size_empty_iff.
  - unfold handleSubmit. now rewrite Hv, Hparse.
Qed.

Lemma invalid_date_passes_validation_witness :
  validateForm example_Date_parse example_now
    (example_form "Take your pill" "tomorrow") = true /\
  handleSubmit example_Date_parse example_now
    (example_form "Take your pill" "tomorrow") = None.
Proof.
  destruct (invalid_date_passes_validation example_Date_parse example_now
              (example_form "Take your pill" "tomorrow"))
    as (Hv & _ & Hs); try (vm_compute; reflexivity).
  - apply test_phone_re. vm_compute. reflexivity.
  - vm_compute. lia.
  - split; assumption.
Defined.

Local Ltac case_names :=
  repeat match goal with
         | |- context [String.eqb ?a ?b] =>
             destruct (String.eqb_spec a b); subst; try congruence
         | H : context [String.eqb ?a ?b] |- _ =>
             destruct (String.eqb_spec a b); subst; try congruence
         end.

Lemma get_set_field (name k : string) (value : list N) (f : FormData) :
  get_field k (set_field name value f) =
    if decide (k = name) then (fun _ => value) <$> get_field k f
    else get_field k f.
Proof.
  destruct (decide (k = name)) as [->|Hne]; unfold get_field, set_field.
  - case_names; reflexivity.
  - case_names; reflexivity.
Qed.

(** Property X4.  [handleChange] for the input [name] sets that field and
    no other, and afterwards no error is shown for that field while every
    other field shows the error it showed before. *)
Theorem handleChange_touches_one_field (name k : string) (value : list N)
    (st : FormState) :
  (is_Some (get_field name (formData st)) ->
   get_field name (formData (handleChange name value st)) = Some value) /\
  error_shown (errors (handleChange name value st)) name = None /\
  (k <> name ->
   get_field k (formData (handleChange name value st)) = get_field k (formData st) /\
   error_shown (errors (handleChange name value st)) k = error_shown (errors st) k).
Proof.
  unfold handleChange. cbn [formData errors]. split; [|split].
  - intros [v Hv]. rewrite get_set_field, decide_True by reflexivity.
    now rewrite Hv.
  - destruct (error_shown (errors st) name) eqn:He; [|exact He].
    unfold error_shown. now rewrite lookup_insert_eq.
  - intros Hne. split.
    + now rewrite get_set_field, decide_False by assumption.
    + destruct (error_shown (errors st) name); [|reflexivity].
      unfold error_shown. now rewrite lookup_insert_ne by congruence.
Qed.

Lemma error_shown_validated (Date_parse : list N -> option Z) (now : Z)
    (st : FormState) (k msg : string) :
  newErrors Date_parse now (formData st) !! k = Some msg -> msg <> "" ->
  error_shown (errors (validated Date_parse now st)) k = Some msg.
Proof.
  intros H Hne. unfold validated, error_shown. cbn [errors].
  rewrite lookup_fmap, H. simpl.
  destruct (String.eqb_spec msg ""); congruence.
Qed.

(** Property X5.  When a submission was refused because the chosen instant
    is not in the future, the message is shown under the date: changing the
    time leaves it on the screen, changing the date removes it. *)
Theorem past_date_error_survives_time_edit (Date_parse : list N -> option Z)
    (now : Z) (st : FormState) (t : Z) (value : list N) :
  falsy (scheduled_date (formData st)) = false ->
  falsy (scheduled_time (formData st)) = false ->
  Date_parse (date_time_string (formData st)) = Some t ->
  (t <= now)%Z ->
  error_shown (errors (handleChange "scheduled_time" value
                         (validated Date_parse now st))) "scheduled_date"
  = Some "Scheduled time must be in the future" /\
  error_shown (errors (handleChange "scheduled_date" value
                         (validated Date_parse now st))) "scheduled_date"
  = None.
Proof.
  intros Hd Ht Hp Hle.
  assert (He : error_shown (errors (validated Date_parse now st)) "scheduled_date"
               = Some "Scheduled time must be in the future").
  { apply error_shown_validated; [|discriminate].
    rewrite errors_scheduled_date, Hd, Ht, Hp. simpl.
    apply Z.leb_le in Hle. now rewrite Hle. }
  split.
  - unfold handleChange. cbn [errors].
    destruct (error_shown (errors (validated Date_parse now st)) "scheduled_time");
      [|exact He].
    unfold error_shown in *. now rewrite lookup_insert_ne by discriminate.
  - unfold handleChange. cbn [errors]. rewrite He.
    unfold error_shown. now rewrite lookup_insert_eq.
Qed.

Lemma past_date_error_survives_time_edit_witness :
  let st := {| formData := example_form "Take your pill" "2020-01-01";
               errors := ∅ |} in
  error_shown (errors (handleChange "scheduled_time" (js "23:59")
                         (validated example_Date_parse example_now st)))
    "scheduled_date"
  = Some "Scheduled time must be in the future".
Proof.
  cbv zeta.
  refine (proj1 (past_date_error_survives_time_edit example_Date_parse example_now
                   {| formData := example_form "Take your pill" "2020-01-01";
                      errors := ∅ |} 1577869200000%Z (js "23:59")
                   eq_refl eq_refl eq_refl _)).
  vm_compute. discriminate.
Defined.

End FormProperties.

(** ** The notification consumer on whole responses *)

Section FeedProperties.

Import JS ReminderNotifications Feed.

Lemma elem_of_cleanup (s : list (list N)) (k : list N) :
  k ∈ cleanup s -> k ∈ s.
Proof.
  unfold cleanup, cleanup_effect. destruct (100 <? length s); [|auto].
  rewrite elem_of_new_Set. unfold slice_last, Array_from. intros H.
  rewrite <- (take_drop (length s - 100) s). apply elem_of_app. now right.
Qed.



(** What the callback of [forEach] leaves alone. *)
Lemma on_updates_foldl (s : list (list N)) (batch : list Notification) :
  forall e : Effects,
    on_updates (foldl (on_notification s) e batch) = on_updates e /\
    poll_time_sets (foldl (on_notification s) e batch) = poll_time_sets e.
Proof.
  induction batch as [|n batch IH]; intros e; simpl; [auto|].
  destruct (IH (on_notification s e n)) as [-> ->].
  unfold on_notification. destruct (set_has s (notifId n)); [auto|].
  unfold show_toast.
  repeat match goal with
         | |- context [bool_decide ?P] => destruct (bool_decide P)
         end; try (split; reflexivity).
  destruct (truthy_transcript n); split; reflexivity.
Qed.

Lemma foldl_all_seen (s : list (list N)) (batch : list Notification) (e : Effects) :
  (forall n, n ∈ batch -> notifId n ∈ s) ->
  foldl (on_notification s) e batch = e.
Proof.
  induction batch as [|n batch IH]; intros H; simpl; [reflexivity|].
  rewrite on_notification_skip by (apply H; left).
  apply IH. intros n' Hn'. apply H. now right.
Qed.

Lemma toasts_show_toast (n : Notification) (e : Effects) :
  toasts (show_toast n e) =
    toasts e ++ (match toast_for n with Some t => [t] | None => [] end).
Proof.
  unfold show_toast, toast_for.
  repeat match goal with
         | |- context [bool_decide ?P] => destruct (bool_decide P)
         end;
    try destruct (truthy_transcript n);
    cbn [toasts toast setTimeout]; try reflexivity;
    now rewrite app_nil_r.
Qed.

(** Where the toasts and timers of a batch come from. *)
Lemma toasts_foldl (s : list (list N)) (batch : list Notification) :
  forall (e : Effects) (t : ToastCall),
    t ∈ toasts (foldl (on_notification s) e batch) ->
    t ∈ toasts e \/
    exists n, n ∈ batch /\ (notifId n ∉ s) /\ toast_for n = Some t.
Proof.
  induction batch as [|n batch IH]; intros e t Ht; simpl in Ht; [now left|].
  apply IH in Ht as [Ht|(n' & Hn' & Hs & Hf)].
  - destruct (decide (notifId n ∈ s)) as [Hin|Hnin].
    + rewrite on_notification_skip in Ht by assumption. now left.
    + rewrite on_notification_new, toasts_show_toast in Ht by assumption.
      cbn [toasts queue_processed] in Ht.
      apply elem_of_app in Ht as [Ht|Ht]; [now left|].
      destruct (toast_for n) as [t'|] eqn:Hf; [|inversion Ht].
      apply list_elem_of_singleton in Ht. subst t'.
      right. exists n. split; [left|]. split; assumption.
  - right. exists n'. split; [now right|]. split; assumption.
Qed.

Lemma timeouts_foldl (s : list (list N)) (batch : list Notification) :
  forall (e : Effects) (d : Z) (t : ToastCall),
    (d, t) ∈ timeouts (foldl (on_notification s) e batch) ->
    (d, t) ∈ timeouts e \/
    (d = 500%Z /\
     exists n tr, n ∈ batch /\ (notifId n ∉ s) /\ status n = js "called" /\
                  truthy_transcript n = Some tr /\ t = transcript_toast tr).
Proof.
  induction batch as [|n batch IH]; intros e d t Ht; simpl in Ht; [now left|].
  apply IH in Ht as [Ht|(Hd & n' & tr & Hn' & Hs & Hst & Htr & Heq)].
  - destruct (decide (notifId n ∈ s)) as [Hin|Hnin].
    + rewrite on_notification_skip in Ht by assumption. now left.
    + rewrite on_notification_new in Ht by assumption.
      unfold show_toast in Ht.
      destruct (bool_decide (status n = js "processing")); [now left|].
      destruct (bool_decide (status n = js "called")) eqn:Hc.
      * apply bool_decide_eq_true in Hc.
        destruct (truthy_transcript n) as [tr|] eqn:Htr; [|now left].
        cbn [timeouts toast setTimeout queue_processed] in Ht.
        apply elem_of_app in Ht as [Ht|Ht]; [now left|].
        apply list_elem_of_singleton in Ht. injection Ht as -> ->.
        right. split; [reflexivity|]. exists n, tr.
        repeat split; auto. left.
      * destruct (bool_decide (status n = js "failed")); [now left|].
        destruct (bool_decide (status n = js "scheduled")); now left.
  - right. split; [exact Hd|]. exists n', tr.
    repeat split; auto. now right.
Qed.

Lemma effects_of_batch (s : list (list N)) (onUpdate : bool)
    (batch : list Notification) :
  toasts (checkForUpdates s onUpdate (Data (Some batch)))
  = toasts (foldl (on_notification s) no_effects batch) /\
  timeouts (checkForUpdates s onUpdate (Data (Some batch)))
  = timeouts (foldl (on_notification s) no_effects batch).
Proof.
  unfold checkForUpdates. destruct batch as [|n batch]; [split; reflexivity|].
  destruct onUpdate; split; reflexivity.
Qed.


Lemma no_fresh_keys (s : list (list N)) (batch : list Notification) :
  (forall n, n ∈ batch -> notifId n ∈ s) ->
  filter (fun k => k ∉ s) (map notifId batch) = [].
Proof.
  induction batch as [|n batch IH]; intros H; [reflexivity|]. simpl.
  rewrite filter_cons_False.
  - apply IH. intros n' Hn'. apply H. now right.
  - intros Hn. apply Hn, H. left.
Qed.



(** Property X7.  [onUpdate], when the parent passed it, is called exactly
    once for every ok response that lists at least one notification, and
    never otherwise.  In particular it is called when every listed
    notification has been seen before and is skipped without a toast. *)
Theorem onUpdate_once_per_listing (s : list (list N)) (onUpdate : bool)
    (r : Response) :
  on_updates (checkForUpdates s onUpdate r)
  = (if onUpdate && negb (quiet r) then 1 else 0) /\
  (forall n batch,
     r = Data (Some (n :: batch)) ->
     (forall n', n' ∈ n :: batch -> notifId n' ∈ s) ->
     checkForUpdates s onUpdate r
     = setLastPollTime (if onUpdate then call_onUpdate no_effects else no_effects)).
Proof.
  split.
  - destruct r as [| |[[|n l]|]]; try (destruct onUpdate; reflexivity).
    unfold checkForUpdates.
    destruct (on_updates_foldl s (n :: l) no_effects) as [Hu _].
    destruct onUpdate; cbn [on_updates setLastPollTime call_onUpdate quiet andb negb];
      rewrite Hu; reflexivity.
  - intros n batch -> Hseen. unfold checkForUpdates.
    now rewrite (foldl_all_seen s (n :: batch) no_effects Hseen).
Qed.

(** Property X8.  Handling the same listing a second time is idle.  When a
    listing is handled by a callback whose seen keys are all still in the
    set (as they are for the callback of the current render), and that poll
    does not make the set outgrow 100 keys, then the callback of the render
    that follows, handling the same listing, shows no toast, starts no
    timer and queues no key, and leaves the set of seen keys (of at most
    100 keys, as it always is after the clean-up) unchanged. *)
Theorem repeated_listing_is_idle (onUpdate : bool) (closure state : list (list N))
    (batch : list Notification) :
  (forall k, k ∈ closure -> k ∈ state) ->
  length (before_cleanup onUpdate closure state (Data (Some batch))) <= 100 ->
  let state' := poll onUpdate closure state (Data (Some batch)) in
  let e := checkForUpdates state' onUpdate (Data (Some batch)) in
  toasts e = [] /\ timeouts e = [] /\ set_calls e = [] /\
  poll onUpdate state' state' (Data (Some batch)) = state' /\
  (forall current, length current <= 100 ->
     poll onUpdate state' current (Data (Some batch)) = current).
Proof.
  intros Hsub Hlen state' e.
  assert (Hseen : forall n, n ∈ batch -> notifId n ∈ state').
  { intros n Hn. subst state'. unfold poll. rewrite cleanup_small by exact Hlen.
    destruct (decide (notifId n ∈ closure)) as [Hc|Hc].
    - unfold before_cleanup. apply elem_of_apply_updates. left. now apply Hsub.
    - now apply key_queued. }
  assert (Hcalls : set_calls e = []).
  { subst e. rewrite set_calls_checkForUpdates. now apply no_fresh_keys. }
  destruct (effects_of_batch state' onUpdate batch) as [Ht Hm].
  fold e in Ht, Hm.
  rewrite (foldl_all_seen state' batch no_effects Hseen) in Ht, Hm.
  assert (Hcur : forall current, length current <= 100 ->
                   poll onUpdate state' current (Data (Some batch)) = current).
  { intros current Hc. unfold poll, before_cleanup. fold e. rewrite Hcalls.
    simpl. now apply cleanup_small. }
  repeat split; try assumption.
  apply Hcur. subst state'. apply length_cleanup.
Qed.

(** The listing r0, r1 is handled by a callback of the first render while
    the set already holds r1: the callback of the next render is idle on
    it. *)
Lemma repeated_listing_is_idle_witness :
  let batch := [numbered_notification 0; numbered_notification 1] in
  toasts (checkForUpdates
            (poll true [] [notifId (numbered_notification 1)] (Data (Some batch)))
            true (Data (Some batch))) = [].
Proof.
  cbv zeta.
  refine (proj1 (repeated_listing_is_idle true []
                   [notifId (numbered_notification 1)]
                   [numbered_notification 0; numbered_notification 1] _ _)).
  - intros k Hk. inversion Hk.
  - vm_compute. lia.
Defined.

End FeedProperties.

Section FeedInvariants.

Import JS ReminderNotifications Feed.

Lemma elem_of_delivered (arrivals : list (list (list N) * Response))
    (n : Notification) :
  n ∈ delivered arrivals <->
  exists closure batch, (closure, Data (Some batch)) ∈ arrivals /\ n ∈ batch.
Proof.
  unfold delivered. rewrite list_elem_of_In, in_flat_map. split.
  - intros ([closure r] & Ha & Hn). simpl in Hn.
    destruct r as [| |[batch|]]; try (inversion Hn; fail).
    exists closure, batch. split; apply list_elem_of_In; assumption.
  - intros (closure & batch & Ha & Hn). exists (closure, Data (Some batch)).
    split; apply list_elem_of_In; assumption.
Qed.

Lemma delivered_snoc (arrivals : list (list (list N) * Response))
    (closure : list (list N)) (r : Response) :
  delivered (arrivals ++ [(closure, r)])
  = delivered arrivals ++ (match r with Data (Some batch) => batch | _ => [] end).
Proof. unfold delivered. rewrite flat_map_app. simpl. now rewrite app_nil_r. Qed.

(** Property X9.  The set of seen keys never holds a key of its own making:
    after any sequence of responses, every key in it is the key of a
    notification that one of the responses delivered. *)
Theorem seen_keys_were_delivered (onUpdate : bool)
    (arrivals : list (list (list N) * Response)) (k : list N) :
  k ∈ run onUpdate arrivals ->
  exists n, n ∈ delivered arrivals /\ notifId n = k.
Proof.
  induction arrivals as [|[closure r] arrivals IH] using rev_ind; intros Hk.
  - inversion Hk.
  - rewrite run_snoc in Hk. unfold poll, before_cleanup in Hk.
    apply elem_of_cleanup, elem_of_apply_updates in Hk as [Hk|Hk].
    + destruct (IH Hk) as (n & Hn & Heq). exists n. split; [|exact Heq].
      rewrite delivered_snoc. apply elem_of_app. now left.
    + destruct r as [| |[batch|]]; try (inversion Hk; fail).
      rewrite set_calls_checkForUpdates in Hk.
      apply list_elem_of_filter in Hk as [_ Hk].
      apply list_elem_of_fmap in Hk as (n & -> & Hn).
      exists n. split; [|reflexivity].
      rewrite delivered_snoc. apply elem_of_app. now right.
Qed.

Lemma seen_keys_were_delivered_witness :
  exists n,
    n ∈ delivered [([], Data (Some [numbered_notification 0]))] /\
    notifId n = js "r0-failed-2025-12-10T10:00:00".
Proof.
  apply (seen_keys_were_delivered false [([], Data (Some [numbered_notification 0]))]).
  vm_compute. left.
Defined.

(** Property X10.  Every toast of a poll belongs to a notification of the
    listing whose key the callback had not seen and whose status is
    processing, called or failed; it is the toast of that status, under the
    reminder's id.  Every timer of a poll is the half-second timer of a
    called notification with a transcript. *)
Theorem toasts_come_from_fresh_notifications (s : list (list N)) (onUpdate : bool)
    (batch : list Notification) :
  let e := checkForUpdates s onUpdate (Data (Some batch)) in
  (forall t, t ∈ toasts e ->
     exists n, n ∈ batch /\ (notifId n ∉ s) /\ toast_for n = Some t /\
               toast_id t = Some (reminder_id n) /\
               (status n = js "processing" \/ status n = js "called" \/
                status n = js "failed")) /\
  (forall d t, (d, t) ∈ timeouts e ->
     d = 500%Z /\
     exists n tr, n ∈ batch /\ (notifId n ∉ s) /\ status n = js "called" /\
                  truthy_transcript n = Some tr /\ t = transcript_toast tr).
Proof.
  intros e. subst e.
  destruct (effects_of_batch s onUpdate batch) as [-> ->]. split.
  - intros t Ht. apply toasts_foldl in Ht as [Ht|(n & Hn & Hs & Hf)];
      [inversion Ht|].
    exists n. split; [exact Hn|]. split; [exact Hs|]. split; [exact Hf|].
    unfold toast_for in Hf.
    destruct (bool_decide (status n = js "processing")) eqn:H1.
    { apply bool_decide_eq_true in H1. injection Hf as <-. auto. }
    destruct (bool_decide (status n = js "called")) eqn:H2.
    { apply bool_decide_eq_true in H2. injection Hf as <-. auto. }
    destruct (bool_decide (status n = js "failed")) eqn:H3; [|discriminate].
    apply bool_decide_eq_true in H3. injection Hf as <-. auto.
  - intros d t Ht. apply timeouts_foldl in Ht as [Ht|Ht]; [inversion Ht|exact Ht].
Qed.

Lemma length_js (a : string) : length (js a) = String.length a.
Proof.
  unfold js. rewrite length_map.
  induction a as [|c a IH]; simpl; [reflexivity | now rewrite IH].
Qed.

Lemma length_toast_for (n : Notification) (t : ToastCall) :
  toast_for n = Some t -> length (text t) <= 68.
Proof.
  assert (Hm : length (substring0 50 (message n)) <= 50).
  { unfold substring0. rewrite length_take. lia. }
  assert (H1 : length (text (loading_toast n)) <= 68).
  { unfold loading_toast, text. rewrite !length_app, !length_js.
    cbn [String.length telephone length]. lia. }
  assert (H2 : length (text (success_toast n)) <= 68).
  { unfold success_toast, text. rewrite !length_app, !length_js.
    cbn [String.length check_mark length]. lia. }
  assert (H3 : length (text (error_toast n)) <= 68).
  { unfold error_toast, text. rewrite !length_app, !length_js.
    cbn [String.length cross_mark length]. lia. }
  unfold toast_for.
  repeat match goal with
         | |- context [bool_decide ?P] => destruct (bool_decide P)
         end; intros Hf; try discriminate;
    apply (inj Some) in Hf; subst t; assumption.
Qed.

(** Property X11.  However long the message of a reminder is, the text of a
    status toast is at most 68 code units long: the toast quotes the first
    50 code units of the message only. *)
Theorem toast_text_is_bounded (s : list (list N)) (onUpdate : bool)
    (batch : list Notification) (t : ToastCall) :
  t ∈ toasts (checkForUpdates s onUpdate (Data (Some batch))) ->
  length (text t) <= 68.
Proof.
  intros Ht. destruct (effects_of_batch s onUpdate batch) as [Heq _].
  rewrite Heq in Ht.
  apply toasts_foldl in Ht as [Ht|(n & _ & _ & Hf)]; [inversion Ht|].
  now apply (length_toast_for n).
Qed.

Lemma toast_text_is_bounded_witness :
  let n := example_notification "r1" "failed" "2025-12-10T10:00:00" None in
  length (text (error_toast n)) <= 68.
Proof.
  cbv zeta.
  apply (toast_text_is_bounded [] false
           [example_notification "r1" "failed" "2025-12-10T10:00:00" None]).
  vm_compute. left.
Defined.

(** Property X12.  A poll that adds at most 100 new keys forgets none of
    them: every notification of the listing whose key is neither in the set
    its callback closed over nor already in the set of seen keys is in the
    set after the clean-up, whichever render the callback belongs to and
    whether or not older keys were trimmed. *)
Theorem new_keys_survive_cleanup (onUpdate : bool)
    (arrivals : list (list (list N) * Response)) (closure : list (list N))
    (batch : list Notification) (n : Notification) :
  let state := run onUpdate arrivals in
  n ∈ batch ->
  notifId n ∉ closure ->
  notifId n ∉ state ->
  length (before_cleanup onUpdate closure state (Data (Some batch)))
    <= length state + 100 ->
  notifId n ∈ poll onUpdate closure state (Data (Some batch)).
Proof.
  intros state Hn Hc Hfresh Hlen.
  pose proof (NoDup_run onUpdate arrivals) as Hnd. fold state in Hnd.
  pose proof (key_queued closure state onUpdate batch n Hn Hc) as Hk.
  unfold poll.
  rewrite cleanup_drop by (now apply NoDup_before_cleanup).
  unfold before_cleanup in *.
  destruct (apply_updates_appends
              (set_calls (checkForUpdates closure onUpdate (Data (Some batch))))
              state Hnd) as [added Ha].
  rewrite Ha in *. rewrite length_app in *.
  apply elem_of_app in Hk as [Hk|Hk]; [contradiction|].
  rewrite drop_app_le by lia. apply elem_of_app. now right.
Qed.

(** The set holds r0 to r99; a callback of the first render handles the
    listing r100, r0: the oldest key is trimmed, and r100 is kept. *)
Lemma new_keys_survive_cleanup_witness :
  notifId (numbered_notification 100) ∈
    poll false []
      (run false [([], Data (Some (map numbered_notification (seq 0 100))))])
      (Data (Some [numbered_notification 100; numbered_notification 0])).
Proof.
  apply (new_keys_survive_cleanup false
           [([], Data (Some (map numbered_notification (seq 0 100))))] []
           [numbered_notification 100; numbered_notification 0]
           (numbered_notification 100)).
  - left.
  - apply not_elem_of_nil.
  - apply (bool_decide_unpack _). vm_compute. exact I.
  - vm_compute. lia.
Defined.

End FeedInvariants.

(** ** Status lookups *)

Section StatusLookups.

Import JS StatusBadge.

Lemma config_lookup_Some (status : list N) (e : Entry) :
  config !! status = Some e ->
  status = js "scheduled" \/ status = js "processing" \/
  status = js "called" \/ status = js "failed".
Proof.
  unfold config. intros H.
  repeat (apply lookup_insert_Some in H as [[Heq _]|[_ H]]; [subst status; auto|]).
  rewrite lookup_empty in H. discriminate.
Qed.

(** Property X13.  Rendering a status badge fails exactly for the statuses
    that name a member of [Object.prototype]; for every other status the
    badge shows the entry of that status, or the Scheduled entry when the
    status is none of the four. *)
Theorem StatusBadge_throws_iff_inherited (status : list N) :
  (StatusBadge status = Throws <-> status ∈ Object_prototype_names) /\
  (forall e, config !! status = Some e ->
     StatusBadge status
     = Span (span_class (class e)) (icon e) (icon_class status) (label e)) /\
  (config !! status = None -> status ∉ Object_prototype_names ->
     StatusBadge status
     = Span (span_class "status-scheduled") Clock (icon_class status) "Scheduled").
Proof.
  assert (Hown : forall e, config !! status = Some e ->
                   StatusBadge status
                   = Span (span_class (class e)) (icon e) (icon_class status) (label e)).
  { intros e He. unfold StatusBadge, lookup_config, get. rewrite He. reflexivity. }
  assert (Hfall : config !! status = None -> status ∉ Object_prototype_names ->
                  StatusBadge status
                  = Span (span_class "status-scheduled") Clock (icon_class status)
                      "Scheduled").
  { intros Hn Hp. unfold StatusBadge, lookup_config, get. rewrite Hn.
    rewrite (bool_decide_eq_false_2 _ Hp). reflexivity. }
  split; [|split; assumption].
  destruct (config !! status) as [e|] eqn:He.
  - rewrite (Hown e eq_refl). split; [discriminate|].
    intros Hp. exfalso.
    apply config_lookup_Some in He as [ -> | [ -> | [ -> | -> ] ] ];
      revert Hp; apply (bool_decide_unpack _); vm_compute; exact I.
  - destruct (decide (status ∈ Object_prototype_names)) as [Hp|Hp].
    + split; [auto|]. intros _. unfold StatusBadge, lookup_config, get.
      rewrite He, (bool_decide_eq_true_2 _ Hp). reflexivity.
    + rewrite (Hfall eq_refl Hp). split; [discriminate | contradiction].
Qed.

End StatusLookups.

(** ** The reminder page *)

Section DetailPage.

Import JS StatusBadge ReminderDetail.

Lemma statusConfig_lookup_Some (st : list N) (e : StatusEntry) :
  statusConfig !! st = Some e ->
  st = js "scheduled" \/ st = js "processing" \/
  st = js "called" \/ st = js "failed".
Proof.
  unfold statusConfig. intros H.
  repeat (apply lookup_insert_Some in H as [[Heq _]|[_ H]]; [subst st; auto|]).
  rewrite lookup_empty in H. discriminate.
Qed.

(** Property X14.  The header of the reminder page fails to render exactly
    for the statuses that name a member of [Object.prototype]; for every
    other status it shows the entry of that status, or the Scheduled entry
    when the status is none of the four, and the icon spins only for
    processing. *)
Theorem header_throws_iff_inherited (st : list N) :
  (header st = Header_throws <-> st ∈ Object_prototype_names) /\
  (forall e, statusConfig !! st = Some e ->
     header st = Shown (s_icon e) (bool_decide (st = js "processing"))
                   (s_class e) (s_label e)) /\
  (statusConfig !! st = None -> st ∉ Object_prototype_names ->
     header st = Shown Clock false "status-scheduled" "Scheduled").
Proof.
  assert (Hown : forall e, statusConfig !! st = Some e ->
                   header st = Shown (s_icon e) (bool_decide (st = js "processing"))
                                 (s_class e) (s_label e)).
  { intros e He. unfold header, choose. rewrite He. reflexivity. }
  assert (Hfall : statusConfig !! st = None -> st ∉ Object_prototype_names ->
                  header st = Shown Clock false "status-scheduled" "Scheduled").
  { intros Hn Hp. unfold header, choose. rewrite Hn.
    rewrite (bool_decide_eq_false_2 _ Hp).
    assert (Hs : st <> js "processing").
    { intros ->. vm_compute in Hn. discriminate. }
    rewrite (bool_decide_eq_false_2 _ Hs). reflexivity. }
  split; [|split; assumption].
  destruct (statusConfig !! st) as [e|] eqn:He.
  - rewrite (Hown e eq_refl). split; [discriminate|].
    intros Hp. exfalso.
    apply statusConfig_lookup_Some in He as [ -> | [ -> | [ -> | -> ] ] ];
      revert Hp; apply (bool_decide_unpack _); vm_compute; exact I.
  - destruct (decide (st ∈ Object_prototype_names)) as [Hp|Hp].
    + split; [auto|]. intros _. unfold header, choose.
      rewrite He, (bool_decide_eq_true_2 _ Hp). reflexivity.
    + rewrite (Hfall eq_refl Hp). split; [discriminate | contradiction].
Qed.

Lemma ticks_pending (fs : list Fetch) :
  forall p : Page,
    interval_set p = true ->
    forallb pending_result fs = true ->
    interval_set (ticks p fs) = true /\
    requests (ticks p fs) = requests p + length fs /\
    error_toasts (ticks p fs) = error_toasts p.
Proof.
  unfold ticks.
  induction fs as [|f fs IH]; intros p Hp Hall; simpl in *.
  - repeat split; auto.
  - apply andb_true_iff in Hall as [Hf Hall].
    destruct f as [data|]; [|discriminate]. simpl in Hf.
    destruct (IH (on_interval p (Fetched data))) as (H1 & H2 & H3).
    + unfold on_interval. rewrite Hp. exact Hf.
    + exact Hall.
    + rewrite H1, H2, H3. unfold on_interval. rewrite Hp. simpl.
      repeat split; lia.
Qed.

Lemma ticks_cleared (fs : list Fetch) (p : Page) :
  interval_set p = false -> ticks p fs = p.
Proof.
  unfold ticks. induction fs as [|f fs IH]; intros Hp; simpl; [reflexivity|].
  unfold on_interval at 2. rewrite Hp. now apply IH.
Qed.

(** Property X15.  The interval of the reminder page is set on mount
    whatever the first fetch returns.  It goes on while the requests return
    a reminder that is scheduled or processing, and it is cleared by the
    first request that fails or returns any other status: that request is
    the last one made, the page keeps showing its reminder (or, after a
    failure, the reminder it showed before), and nothing that would have
    come later changes the page. *)
Theorem polling_stops_at_first_settled (f0 : Fetch) (before : list Fetch)
    (f : Fetch) (later : list Fetch) :
  forallb pending_result before = true ->
  pending_result f = false ->
  let p0 := on_fetchReminder f0 mounted in
  let p := ticks p0 (before ++ f :: later) in
  p = ticks p0 (before ++ [f]) /\
  interval_set p = false /\
  requests p = 2 + length before /\
  reminder p = (match f with
                | Fetched data => Some data
                | Fetch_failed => reminder (ticks p0 before)
                end).
Proof.
  intros Hall Hf p0 p.
  assert (H0 : interval_set p0 = true) by (destruct f0; reflexivity).
  assert (Hr0 : requests p0 = 1) by (destruct f0; reflexivity).
  destruct (ticks_pending before p0 H0 Hall) as (H1 & H2 & _).
  assert (Hstop : interval_set (on_interval (ticks p0 before) f) = false).
  { unfold on_interval. rewrite H1. destruct f as [data|]; simpl in *.
    - now rewrite Hf.
    - reflexivity. }
  assert (Heq : p = on_interval (ticks p0 before) f).
  { subst p. unfold ticks at 1. rewrite foldl_app. simpl.
    fold (ticks p0 before).
    fold (ticks (on_interval (ticks p0 before) f) later).
    now apply ticks_cleared. }
  split; [|split; [|split]].
  - rewrite Heq. unfold ticks at 2. rewrite foldl_app. reflexivity.
  - rewrite Heq. exact Hstop.
  - rewrite Heq. unfold on_interval. rewrite H1.
    destruct f; simpl; rewrite H2, Hr0; lia.
  - rewrite Heq. unfold on_interval. rewrite H1. destruct f; reflexivity.
Qed.

Lemma polling_stops_at_first_settled_witness :
  let calling := Fetched {| status := js "processing"; detail := js "r1" |} in
  let done := Fetched {| status := js "called"; detail := js "r1" |} in
  let late := Fetched {| status := js "failed"; detail := js "r1" |} in
  let p := ticks (on_fetchReminder calling mounted) [calling; done; late] in
  requests p = 3 /\ reminder p = Some {| status := js "called"; detail := js "r1" |}.
Proof.
  cbv zeta.
  destruct (polling_stops_at_first_settled
              (Fetched {| status := js "processing"; detail := js "r1" |})
              [Fetched {| status := js "processing"; detail := js "r1" |}]
              (Fetched {| status := js "called"; detail := js "r1" |})
              [Fetched {| status := js "failed"; detail := js "r1" |}]
              eq_refl eq_refl) as (_ & _ & Hr & Hm).
  split; assumption.
Defined.

End DetailPage.

(** ** Lists: paging and filtering *)

Section Lists.

Import JS Pagination Reminders.

Lemma step_page_ge_1 (p : Pager) (ev : Event) :
  (1 <= page p)%Z -> (1 <= page (step p ev))%Z.
Proof.
  intros H. destruct ev; simpl; try exact H.
  - destruct ((1 <? totalPages p)%Z && negb (page p =? 1)%Z); simpl; lia.
  - destruct ((1 <? totalPages p)%Z && negb (page p =? totalPages p)%Z) eqn:E;
      simpl; [|exact H].
    apply andb_true_iff in E as [E _]. apply Z.ltb_lt in E. lia.
Qed.

Lemma step_page_le_total (T : Z) (p : Pager) (ev : Event) :
  (forall n, ev = Loaded n -> n = T) ->
  (1 <= T)%Z ->
  (page p <= T)%Z /\ (totalPages p = 1%Z \/ totalPages p = T) ->
  (page (step p ev) <= T)%Z /\
  (totalPages (step p ev) = 1%Z \/ totalPages (step p ev) = T).
Proof.
  intros Hev HT [Hp Ht]. destruct ev; simpl.
  - destruct ((1 <? totalPages p)%Z && negb (page p =? 1)%Z); simpl;
      split; auto; lia.
  - destruct ((1 <? totalPages p)%Z && negb (page p =? totalPages p)%Z) eqn:E;
      simpl; split; auto.
    apply andb_true_iff in E as [E _]. apply Z.ltb_lt in E. lia.
  - split; [exact Hp|]. right. now apply Hev.
Qed.

(** Property X16.  Whatever is clicked and whatever page counts the server
    reports, the page number never falls below 1; and while the server
    reports one page count T >= 1, it never rises above T. *)
Theorem page_stays_in_range (events : list Event) :
  (1 <= page (after events))%Z /\
  (forall T, (1 <= T)%Z ->
     (forall n, Loaded n ∈ events -> n = T) ->
     (page (after events) <= T)%Z).
Proof.
  unfold after. split.
  - induction events as [|ev events IH] using rev_ind; [simpl; lia|].
    rewrite foldl_app. simpl. now apply step_page_ge_1.
  - intros T HT Hall.
    cut ((page (foldl step initial events) <= T)%Z /\
         (totalPages (foldl step initial events) = 1%Z \/
          totalPages (foldl step initial events) = T)); [tauto|].
    induction events as [|ev events IH] using rev_ind.
    + simpl. split; [lia | now left].
    + rewrite foldl_app. simpl. apply step_page_le_total; auto.
      * intros n ->. apply Hall. apply elem_of_app. right. left.
      * apply IH. intros n Hn. apply Hall. apply elem_of_app. now left.
Qed.

(** Property X17.  The filtered list is the fetched page with its order
    kept: with the filter "all" it is the whole page, and with any other
    filter it holds exactly the reminders of the page whose status is the
    filter. *)
Theorem filteredReminders_selects (statusFilter : list N)
    (reminders : list Reminder) (r : Reminder) :
  sublist (filteredReminders statusFilter reminders) reminders /\
  (r ∈ filteredReminders statusFilter reminders <->
   r ∈ reminders /\ (statusFilter = js "all" \/ status r = statusFilter)) /\
  (filteredReminders statusFilter (filteredReminders statusFilter reminders)
   = filteredReminders statusFilter reminders).
Proof.
  unfold filteredReminders.
  destruct (bool_decide (statusFilter = js "all")) eqn:Hall.
  - apply bool_decide_eq_true in Hall. repeat split; auto; tauto.
  - apply bool_decide_eq_false in Hall. split; [apply sublist_filter|]. split.
    + rewrite list_elem_of_filter. tauto.
    + induction reminders as [|x l IH]; [reflexivity|].
      rewrite filter_cons. destruct (decide (status x = statusFilter)) as [Hx|Hx].
      * rewrite filter_cons, decide_True by exact Hx. now rewrite IH.
      * exact IH.
Qed.

End Lists.

(** ** Creating a user *)

Section CreatingUsers.

Import JS Users.


End CreatingUsers.

(** ** The navigation *)

Section Navigation.

Import JS Layout.

(** Property X19.  For every path at most one navigation item is
    highlighted, and one is highlighted exactly when the path is the
    address of an item: on the page of a single reminder none is. *)
Theorem at_most_one_active_item (pathname : list N) :
  length (active_items pathname) <= 1 /\
  (length (active_items pathname) = 1 <-> pathname ∈ map href navigation).
Proof.
  assert (Hin : pathname ∈ map href navigation <->
                pathname = js "/" \/ pathname = js "/users" \/
                pathname = js "/reminders" \/ pathname = js "/reminders/create").
  { unfold navigation. cbn [map href].
    rewrite !elem_of_cons, elem_of_nil. tauto. }
  rewrite Hin. unfold active_items, navigation, isActive.
  cbn [List.filter href].
  destruct (bool_decide_reflect (pathname = js "/")) as [E1|N1];
    destruct (bool_decide_reflect (pathname = js "/users")) as [E2|N2];
    destruct (bool_decide_reflect (pathname = js "/reminders")) as [E3|N3];
    destruct (bool_decide_reflect (pathname = js "/reminders/create")) as [E4|N4];
    try solve [exfalso;
               match goal with
               | A : pathname = ?a, B : pathname = ?b |- _ =>
                   rewrite A in B; vm_compute in B; discriminate
               end];
    cbn [length]; (split; [lia|]); split; intros H; try lia; try tauto;
    try discriminate.
Qed.

End Navigation.

(** ** The stat cards *)

Section StatCards.

Import JS Dashboard DashboardCards.

(** Property X20.  A stat card never shows NaN or a negative zero: without
    statistics, and for a field that is zero or NaN, it shows 0, and
    otherwise it shows the field. *)
Theorem stat_card_value_is_a_number (field : Stats -> float) (stats : option Stats) :
  PrimFloat.is_nan (or_zero field stats) = false /\
  or_zero field stats <> (-0)%float /\
  (forall s, stats = Some s -> truthy_number (field s) = true ->
     or_zero field stats = field s) /\
  (forall s, stats = Some s -> truthy_number (field s) = false ->
     or_zero field stats = 0%float) /\
  (stats = None -> or_zero field stats = 0%float).
Proof.
  unfold or_zero. destruct stats as [s|].
  - destruct (truthy_number (field s)) eqn:Ht.
    + pose proof Ht as Ht'. unfold truthy_number in Ht'.
      apply andb_true_iff in Ht' as [Hn Hz].
      apply negb_true_iff in Hn. apply negb_true_iff in Hz.
      split; [exact Hn|]. split.
      * intros Heq. rewrite Heq in Hz. vm_compute in Hz. discriminate.
      * repeat split; try discriminate; intros s' [= <-]; auto.
        rewrite Ht. discriminate.
    + split; [reflexivity|]. split; [vm_compute; discriminate|].
      repeat split; try discriminate; intros s' [= <-]; auto.
      rewrite Ht. discriminate.
  - split; [reflexivity|]. split; [vm_compute; discriminate|].
    repeat split; discriminate.
Qed.

End StatCards.
